(** * Verification of the lead-generation pipeline (veneer-lead-agent)

    Shallow embedding of the Python sources:
    - [src/utils/parser.py]          parse_url_list, parse_company_data,
                                     parse_analysis_results
    - [src/company_extractor.py]     parse_analysis_results,
                                     extract_companies_from_url, analyze_company
    - [src/agent_runner.py]          the candidate loop of
                                     run_lead_generation_process
    - [src/url_processor.py]         the TLD filter of perform_search
    - [src/utils/error_handler.py]   retry (same code in logging_utils.py)
    - [src/utils/api_cache.py]       APICache.get / set / cached, cached_api_call

    Python [str] values are modelled as [String.string]; a character is an
    8-bit [Ascii.ascii], i.e. a code point in 0..255 (Latin-1).  The
    character predicates below ([is_space], [is_word], [lower_char], ...)
    follow Python's Unicode tables restricted to that range. *)

From Stdlib Require Import Ascii String List Bool Arith ZArith Lia Sorted.
From stdpp Require Import gmap strings.
Import ListNotations.

Local Open Scope bool_scope.
#[local] Set Warnings "-register-all".

(* ------------------------------------------------------------------ *)
(** ** Python text primitives *)
(* ------------------------------------------------------------------ *)

Module Py.

Definition code (c : ascii) : nat := nat_of_ascii c.

Definition in_range (lo hi n : nat) : bool := (lo <=? n) && (n <=? hi).

(** [str.isspace] (also the [\s] class of [re] for [str] patterns):
    9..13, 28..31, 32, 133, 160. *)
Definition is_space (c : ascii) : bool :=
  let n := code c in
  in_range 9 13 n || in_range 28 32 n || (n =? 133) || (n =? 160).

(** [\d] for [str] patterns: Unicode decimal digits, i.e. 0-9 below 256. *)
Definition is_digit (c : ascii) : bool := in_range 48 57 (code c).

Definition is_upper_letter (c : ascii) : bool :=
  let n := code c in in_range 65 90 n || in_range 192 214 n || in_range 216 222 n.

Definition is_lower_letter (c : ascii) : bool :=
  let n := code c in
  in_range 97 122 n || in_range 223 246 n || in_range 248 255 n
  || (n =? 170) || (n =? 181) || (n =? 186).

(** [\w]: [str.isalnum()] or ['_'] (letters, 0-9, superscripts 178 179
    185, fractions 188..190). *)
Definition is_word (c : ascii) : bool :=
  let n := code c in
  is_upper_letter c || is_lower_letter c || is_digit c || (n =? 95)
  || (n =? 178) || (n =? 179) || (n =? 185) || in_range 188 190 n.

(** [str.lower] on one character. *)
Definition lower_char (c : ascii) : ascii :=
  if is_upper_letter c then ascii_of_nat (code c + 32) else c.

(** [str.upper] on one character; the three characters of 0..255 whose
    upper case leaves the range (181, 223, 255) are kept as they are,
    which changes no comparison against an ASCII literal made below. *)
Definition upper_char (c : ascii) : ascii :=
  let n := code c in
  if in_range 97 122 n || in_range 224 246 n || in_range 248 254 n
  then ascii_of_nat (n - 32) else c.

Fixpoint map_str (f : ascii -> ascii) (s : string) : string :=
  match s with
  | EmptyString => EmptyString
  | String c s' => String (f c) (map_str f s')
  end.

Definition lower (s : string) : string := map_str lower_char s.
Definition upper (s : string) : string := map_str upper_char s.

(** [str.lstrip(chars)] / [str.rstrip(chars)] / [str.strip(chars)] for a
    membership predicate on characters. *)
Fixpoint lstrip_by (p : ascii -> bool) (s : string) : string :=
  match s with
  | EmptyString => EmptyString
  | String c s' => if p c then lstrip_by p s' else s
  end.

Definition rev_str (s : string) : string :=
  string_of_list_ascii (rev (list_ascii_of_string s)).

Definition rstrip_by (p : ascii -> bool) (s : string) : string :=
  rev_str (lstrip_by p (rev_str s)).

Definition strip_by (p : ascii -> bool) (s : string) : string :=
  rstrip_by p (lstrip_by p s).

Definition in_chars (chars : string) (c : ascii) : bool :=
  existsb (fun d => Ascii.eqb c d) (list_ascii_of_string chars).

(** [s.strip()] *)
Definition strip (s : string) : string := strip_by is_space s.
(** [s.strip(chars)], [s.rstrip(chars)] *)
Definition strip_chars (chars s : string) : string := strip_by (in_chars chars) s.
Definition rstrip_chars (chars s : string) : string := rstrip_by (in_chars chars) s.

(** [s.startswith(p)] *)
Fixpoint startswith (s p : string) : bool :=
  match p, s with
  | EmptyString, _ => true
  | String c p', String d s' => Ascii.eqb c d && startswith s' p'
  | String _ _, EmptyString => false
  end.

(** [s.find(sub)] *)
Fixpoint find (s sub : string) : option nat :=
  if startswith s sub then Some 0 else
  match s with
  | EmptyString => None
  | String _ s' => option_map S (find s' sub)
  end.

(** [sub in s] *)
Definition contains (s sub : string) : bool :=
  match find s sub with Some _ => true | None => false end.

(** [s.split(sep, 1)] for a non-empty separator. *)
Definition split1 (s sep : string) : list string :=
  match find s sep with
  | None => [s]
  | Some i => [substring 0 i s; substring (i + String.length sep) (String.length s) s]
  end.

(** [s.replace(old, new)] for a non-empty [old]: non-overlapping, left to
    right. *)
Fixpoint replace_fuel (n : nat) (old new s : string) : string :=
  match n with
  | O => s
  | S n' =>
    if startswith s old then
      (new ++ replace_fuel n' old new
               (substring (String.length old) (String.length s) s))%string
    else match s with
         | EmptyString => EmptyString
         | String c s' => String c (replace_fuel n' old new s')
         end
  end.

Definition replace (old new s : string) : string :=
  replace_fuel (S (String.length s)) old new s.

(** [s.endswith(suffix)] *)
Definition endswith (s suf : string) : bool :=
  startswith (rev_str s) (rev_str suf).

End Py.


(* ------------------------------------------------------------------ *)
(** ** A backtracking matcher for the [re] patterns used by the code *)
(* ------------------------------------------------------------------ *)

(** Python's [re] is a backtracking matcher: alternatives are tried left
    to right, greedy repetitions try one more iteration before stopping,
    lazy ones stop first.  The matcher below is written in continuation
    passing style, so the first successful continuation is the match
    Python reports.  A repetition never accepts an iteration that
    consumes nothing (none of the patterns of the code has a repeated
    sub-pattern that can match the empty string), which also makes the
    definition structural. *)
Module Re.

Inductive regex :=
| REps
| RChr (c : ascii)
| RCls (neg : bool) (p : ascii -> bool)
| RAny
| RSeq (a b : regex)
| RAlt (a b : regex)
| RRep (mn : nat) (mx : option nat) (greedy : bool) (r : regex)
| RGrp (n : nat) (r : regex)
| RBol
| REndZ
| RWordB.

Record flags := { icase : bool; dotall : bool; multiline : bool }.

Definition caps := list (nat * (nat * nat)).

Section Matcher.
Variable fl : flags.
Variable inp : list ascii.

Definition len := length inp.

Definition char_at (i : nat) : option ascii := nth_error inp i.

Definition chr_ok (a c : ascii) : bool :=
  if icase fl then Ascii.eqb (Py.lower_char a) (Py.lower_char c) else Ascii.eqb a c.

Definition cls_ok (neg : bool) (p : ascii -> bool) (c : ascii) : bool :=
  let hit := if icase fl then p c || p (Py.lower_char c) || p (Py.upper_char c) else p c in
  xorb neg hit.

Definition word_at (i : nat) : bool :=
  match char_at i with Some c => Py.is_word c | None => false end.

Definition at_bol (i : nat) : bool :=
  match i with
  | O => true
  | S i' => multiline fl && match char_at i' with Some c => Ascii.eqb c "010"%char | None => false end
  end.

Definition at_wordb (i : nat) : bool :=
  let before := match i with O => false | S i' => word_at i' end in
  xorb before (word_at i).

Definition step1 (ok : ascii -> bool) (i : nat) (c : caps)
    (k : nat -> caps -> option (nat * caps)) : option (nat * caps) :=
  match char_at i with
  | Some a => if ok a then k (S i) c else None
  | None => None
  end.

Fixpoint m (r : regex) (i : nat) (c : caps)
    (k : nat -> caps -> option (nat * caps)) {struct r} : option (nat * caps) :=
  match r with
  | REps => k i c
  | RChr a => step1 (chr_ok a) i c k
  | RCls neg p => step1 (cls_ok neg p) i c k
  | RAny => step1 (fun a => dotall fl || negb (Ascii.eqb a "010"%char)) i c k
  | RSeq a b => m a i c (fun j c' => m b j c' k)
  | RAlt a b => match m a i c k with Some x => Some x | None => m b i c k end
  | RGrp n a => m a i c (fun j c' => k j ((n, (i, j)) :: c'))
  | RBol => if at_bol i then k i c else None
  | REndZ => if i =? len then k i c else None
  | RWordB => if at_wordb i then k i c else None
  | RRep mn mx g a =>
    let fix opt (b : nat) (mx : option nat) (i : nat) (c : caps) {struct b} :=
      match mx with
      | Some O => k i c
      | _ =>
        match b with
        | O => k i c
        | S b' =>
          if g then
            match m a i c (fun j c' => if i <? j then opt b' (option_map pred mx) j c' else None) with
            | Some x => Some x
            | None => k i c
            end
          else
            match k i c with
            | Some x => Some x
            | None => m a i c (fun j c' => if i <? j then opt b' (option_map pred mx) j c' else None)
            end
        end
      end in
    let fix mand (n : nat) (i : nat) (c : caps) {struct n} :=
      match n with
      | O => opt len (option_map (fun x => x - mn) mx) i c
      | S n' => m a i c (fun j c' => mand n' j c')
      end in
    mand mn i c
  end.

Definition match_at (r : regex) (i : nat) : option (nat * caps) :=
  m r i [] (fun j c => Some (j, c)).

(** [re.search]: the leftmost start position at which [r] matches. *)
Fixpoint search_aux (r : regex) (n start : nat) : option (nat * nat * caps) :=
  match match_at r start with
  | Some (j, c) => Some (start, j, c)
  | None => match n with O => None | S n' => search_aux r n' (S start) end
  end.

Definition search_from (r : regex) (pos : nat) : option (nat * nat * caps) :=
  if len <? pos then None else search_aux r (len - pos) pos.

(** All non-overlapping matches, left to right ([re.findall],
    [re.finditer]). *)
Fixpoint matches_aux (r : regex) (n pos : nat) : list (nat * nat * caps) :=
  match n with
  | O => []
  | S n' =>
    match search_from r pos with
    | None => []
    | Some (s, e, c) => (s, e, c) :: matches_aux r n' (if e =? s then S e else e)
    end
  end.

Definition matches (r : regex) : list (nat * nat * caps) :=
  matches_aux r (S (S len)) 0.

Definition slice (i j : nat) : string :=
  string_of_list_ascii (firstn (j - i) (skipn i inp)).

Definition group (c : caps) (n : nat) : string :=
  match find (fun p => fst p =? n) c with
  | Some (_, (a, b)) => slice a b
  | None => EmptyString
  end.

End Matcher.

(** The entry points take the subject as a Python [str]. *)
Definition search (fl : flags) (r : regex) (s : string) : option (nat * nat * caps) :=
  search_from fl (list_ascii_of_string s) r 0.

(** [re.findall] for a pattern with exactly one group. *)
Definition findall1 (fl : flags) (r : regex) (s : string) : list string :=
  let inp := list_ascii_of_string s in
  map (fun '(_, _, c) => group inp c 1) (matches fl inp r).

(** [re.findall] for a pattern with no group: the whole matches. *)
Definition findall0 (fl : flags) (r : regex) (s : string) : list string :=
  let inp := list_ascii_of_string s in
  map (fun '(a, b, _) => slice inp a b) (matches fl inp r).

(** [re.findall] for a pattern with two groups: the pairs of groups. *)
Definition findall2 (fl : flags) (r : regex) (s : string) : list (string * string) :=
  let inp := list_ascii_of_string s in
  map (fun '(_, _, c) => (group inp c 1, group inp c 2)) (matches fl inp r).

(** [m.group(1)] of [re.search]. *)
Definition search_group1 (fl : flags) (r : regex) (s : string) : option string :=
  match search fl r s with
  | Some (_, _, c) => Some (group (list_ascii_of_string s) c 1)
  | None => None
  end.

(** [re.sub(r, repl, s)] with a constant replacement. *)
Definition sub (fl : flags) (r : regex) (repl s : string) : string :=
  let inp := list_ascii_of_string s in
  let fix go (ms : list (nat * nat * caps)) (pos : nat) : string :=
    match ms with
    | [] => slice inp pos (length inp)
    | (a, b, _) :: ms' => (slice inp pos a ++ repl ++ go ms' b)%string
    end in
  go (matches fl inp r) 0.

(** Pattern builders. *)
Fixpoint lit (s : string) : regex :=
  match s with
  | EmptyString => REps
  | String c EmptyString => RChr c
  | String c s' => RSeq (RChr c) (lit s')
  end.

Fixpoint seqs (l : list regex) : regex :=
  match l with
  | [] => REps
  | [r] => r
  | r :: l' => RSeq r (seqs l')
  end.

Fixpoint alts (l : list regex) : regex :=
  match l with
  | [] => RCls false (fun _ => false)
  | [r] => r
  | r :: l' => RAlt r (alts l')
  end.

Definition star r := RRep 0 None true r.
Definition plus r := RRep 1 None true r.
Definition lazy_star r := RRep 0 None false r.
Definition opt r := RRep 0 (Some 1) true r.
Definition rep mn mx r := RRep mn (Some mx) true r.

Definition chars (s : string) : ascii -> bool := Py.in_chars s.
Definition cls s := RCls false (chars s).
Definition ncls s := RCls true (chars s).
Definition cls_p (p : ascii -> bool) := RCls false p.
Definition ncls_p (p : ascii -> bool) := RCls true p.

Definition sp := RCls false Py.is_space.
Definition dig := RCls false Py.is_digit.
Definition nl := RChr "010"%char.

Definition no_flags := {| icase := false; dotall := false; multiline := false |}.
Definition f_IS := {| icase := true; dotall := true; multiline := false |}.
Definition f_IM := {| icase := true; dotall := false; multiline := true |}.
Definition f_M := {| icase := false; dotall := false; multiline := true |}.

(** Character ranges. *)
Definition alpha (c : ascii) : bool :=
  Py.in_range 65 90 (Py.code c) || Py.in_range 97 122 (Py.code c).
Definition alnum (c : ascii) : bool := alpha c || Py.is_digit c.

End Re.


(* ------------------------------------------------------------------ *)
(** ** Python values and exceptions *)
(* ------------------------------------------------------------------ *)

Module PyVal.

(** The Python values the parsers can receive or build. *)
Inductive pyval :=
| PNone
| PBool (b : bool)
| PNum (lexeme : string)
| PStr (s : string)
| PList (l : list pyval)
| PDict (kvs : list (pyval * pyval))
| PObj (type_name : string).

(** A raised exception: its class name and its [str(e)]. *)
Record pyexc := { exc_class : string; exc_msg : string }.

(** A computation that returns a value or raises. *)
Inductive res (A : Type) :=
| Ok (a : A)
| Raise (e : pyexc).
Arguments Ok {A} a.
Arguments Raise {A} e.

Definition bind {A B} (m : res A) (f : A -> res B) : res B :=
  match m with Ok a => f a | Raise e => Raise e end.

Notation "'let!' x := m 'in' f" := (bind m (fun x => f))
  (at level 200, x name, m at level 100, f at level 200).

(** [l[i]] *)
Definition index {A} (l : list A) (i : nat) : res A :=
  match nth_error l i with
  | Some x => Ok x
  | None => Raise {| exc_class := "IndexError"; exc_msg := "list index out of range" |}
  end.

(** [d.get(k)] on a dict: the last binding of [k] wins, as for a dict
    built from a literal with repeated keys. *)
Definition dict_get_def (kvs : list (pyval * pyval)) (k : string) (d : pyval) : pyval :=
  fold_left (fun acc '(k', v) => match k' with
                                 | PStr s => if String.eqb s k then v else acc
                                 | _ => acc
                                 end) kvs d.

Definition dict_get (kvs : list (pyval * pyval)) (k : string) : pyval :=
  dict_get_def kvs k PNone.

End PyVal.

Module Py2.
Import PyVal.

(** [s.split(sep)] for a non-empty separator. *)
Fixpoint split_fuel (n : nat) (s sep : string) : list string :=
  match n with
  | O => [s]
  | S n' =>
    match Py.find s sep with
    | None => [s]
    | Some i => substring 0 i s
                :: split_fuel n' (substring (i + String.length sep) (String.length s) s) sep
    end
  end.

Definition split (s sep : string) : list string :=
  split_fuel (S (String.length s)) s sep.

(** [cleaned.split(":", 1)[1]] *)
Definition after_first (s sep : string) : res string := index (Py.split1 s sep) 1.

(** The "FINAL ANSWER:" prefix test used by every parser:
    [s.strip().upper().startswith("FINAL ANSWER:")]. *)
Definition has_final_answer (s : string) : bool :=
  Py.startswith (Py.upper (Py.strip s)) "FINAL ANSWER:".

End Py2.

(* ------------------------------------------------------------------ *)
(** ** company_extractor.parse_analysis_results *)
(* ------------------------------------------------------------------ *)

(** The dict [{"email": ..., "pain_points": ...}] returned by both
    [parse_analysis_results]. *)
Record analysis := { email : string; pain_points : string }.

Module Extractor.
Import PyVal Re.

(** [r'\b[A-Za-z0-9._%+-]+@[A-Za-z0-9.-]+\.[A-Z|a-z]{2,7}\b'] *)
Definition email_pattern : regex :=
  seqs [RWordB;
        plus (cls_p (fun c => alnum c || Py.in_chars "._%+-" c));
        RChr "@";
        plus (cls_p (fun c => alnum c || Py.in_chars ".-" c));
        RChr ".";
        rep 2 7 (cls_p (fun c => alpha c || Ascii.eqb c "|"));
        RWordB].

Definition invalid_email_domains_or_parts : list string :=
  ["example.com"; "yourdomain.com"; "test.com"; "sentry.io";
   "wixpress.com"; "wordpress.org"; "schemas.microsoft.com";
   "localhost"; "example.org"; "yourname@"; "email@"; "contact@"; "info@"; "sales@";
   ".png"; ".jpg"; ".gif"; ".webp"; ".svg";
   "u003e"; "u003c"]%string.

(** The loop that builds [valid_emails]. *)
Definition email_ok (e : string) : bool :=
  let e_lower := Py.lower e in
  if existsb (Py.contains e_lower) invalid_email_domains_or_parts then false
  else if existsb (Py.startswith e_lower) ["contact@"; "info@"; "sales@"]%string
          && existsb (String.eqb (nth 1 (Py2.split e_lower "@") EmptyString))
                     ["domain.com"; "company.com"]%string
  then false
  else true.

Definition valid_emails (cleaned : string) : list string :=
  filter email_ok (findall0 no_flags email_pattern cleaned).

Definition header_alts : regex :=
  alts (map lit ["Pain Points"; "Key Challenges"; "Identified Opportunities";
                 "Analysis Summary"; "Business Needs"; "Client Issues"]%string).

(** The three entries of [pain_point_patterns] (flags IGNORECASE|DOTALL). *)
Definition pain_point_pattern_1 : regex :=
  seqs [header_alts; star sp; RChr ":"; star sp; opt nl; RGrp 1 (lazy_star RAny);
        alts [lit "Email:"; lit "Contact Email:"; lit "Contact:";
              lit "Suggested Decision Makers:"; lit "Conclusion:"; REndZ]].

Definition pain_point_pattern_2 : regex :=
  seqs [lit "Pain Points"; star sp; lit "for"; star sp; lit "Sponsorship"; star sp;
        RChr ":"; star sp; opt nl; RGrp 1 (lazy_star RAny);
        alts [lit "Email:"; lit "Contact Email:"; REndZ]].

Definition pain_point_pattern_3 : regex :=
  seqs [dig; RChr "."; star sp; RGrp 1 (lazy_star RAny);
        alts [seqs [nl; dig; RChr "."; sp]; seqs [nl; nl]; REndZ]].

Definition pain_point_patterns := [pain_point_pattern_1; pain_point_pattern_2; pain_point_pattern_3].

(** The [for pattern in pain_point_patterns] loop: [extracted_block] keeps
    the last match; a match longer than 20 characters stops the loop. *)
Fixpoint block_loop (ps : list regex) (cleaned : string) (block : option string) : option string :=
  match ps with
  | [] => block
  | p :: ps' =>
    match search_group1 f_IS p cleaned with
    | Some g =>
      let b := Py.strip g in
      if 20 <? String.length b then Some b else block_loop ps' cleaned (Some b)
    | None => block_loop ps' cleaned block
    end
  end.

(** [r"^\s*[-\*•\d\.\s]+"] (MULTILINE) and [r"\n\s*[-\*•\d\.\s]+"]; the
    bullet U+2022 lies outside the modelled alphabet and matches none of
    its characters. *)
Definition marker_class : regex :=
  cls_p (fun c => Py.in_chars "-*." c || Py.is_digit c || Py.is_space c).
Definition marker_pattern_1 : regex := seqs [RBol; star sp; plus marker_class].
Definition marker_pattern_2 : regex := seqs [nl; star sp; plus marker_class].

Definition no_points_sentinel : string :=
  "No specific pain points identified in the output.".

Definition parse_analysis_results (result : pyval) : res analysis :=
  match result with
  | PStr result =>
    let cleaned0 := Py.strip result in
    let! cleaned_result :=
      (if Py.startswith (Py.upper cleaned0) "FINAL ANSWER:"
       then let! rest := Py2.after_first cleaned0 ":" in Ok (Py.strip rest)
       else Ok cleaned0) in
    let email := match valid_emails cleaned_result with e :: _ => e | [] => EmptyString end in
    let pain0 :=
      match block_loop pain_point_patterns cleaned_result None with
      | Some b => if String.eqb b EmptyString then None else Some b
      | None => None
      end in
    let! pain1 :=
      match pain0 with
      | Some b => Ok b
      | None =>
        if String.eqb email EmptyString then Ok cleaned_result
        else
          let parts := Py.split1 cleaned_result email in
          let! p0 := index parts 0 in
          let! content_after_email :=
            (if 1 <? length parts then let! p1 := index parts 1 in Ok (Py.strip p1)
             else Ok EmptyString) in
          let content_before_email := Py.strip p0 in
          if 20 <? String.length content_after_email then Ok content_after_email
          else if 20 <? String.length content_before_email then Ok content_before_email
          else Ok (Py.strip (Py.replace email EmptyString cleaned_result))
      end in
    let pain2 := Py.strip (sub f_M marker_pattern_1 EmptyString pain1) in
    let pain3 := Py.strip (sub no_flags marker_pattern_2 (String "010"%char EmptyString) pain2) in
    let pain4 := if String.eqb (Py.strip pain3) EmptyString || String.eqb pain3 email
                 then no_points_sentinel else pain3 in
    Ok {| email := email; pain_points := pain4 |}
  | _ => Ok {| email := EmptyString; pain_points := "Analysis failed - non-string result" |}
  end.

End Extractor.

Definition scenario_C : string :=
  "Contact Email: info@acme.com
Pain Points:
1. X
2. Y".

(* ------------------------------------------------------------------ *)
(** ** [json.loads] *)
(* ------------------------------------------------------------------ *)

(** Python's JSON decoder (strict mode) on the modelled alphabet: objects
    become dicts (a repeated key keeps its last value, see [dict_get]),
    arrays lists, strings [str], numbers are kept as their lexeme.  A
    [\uXXXX] escape above 255 lies outside the alphabet and is refused.
    [None] is a [JSONDecodeError]. *)
Module Json.
Import PyVal.

(** The double quote character. *)
Definition dq : ascii := "034"%char.

Definition is_ws (c : ascii) : bool := Py.in_chars " 	
" c || Ascii.eqb c "013"%char.

Fixpoint skip_ws (s : list ascii) : list ascii :=
  match s with
  | c :: s' => if is_ws c then skip_ws s' else s
  | [] => []
  end.

Fixpoint prefix (p s : list ascii) : option (list ascii) :=
  match p, s with
  | [], _ => Some s
  | c :: p', d :: s' => if Ascii.eqb c d then prefix p' s' else None
  | _, [] => None
  end.

Definition kw (w : string) (v : pyval) (s : list ascii) : option (pyval * list ascii) :=
  match prefix (list_ascii_of_string w) s with
  | Some rest => Some (v, rest)
  | None => None
  end.

Fixpoint digits (s : list ascii) : list ascii * list ascii :=
  match s with
  | c :: s' => if Py.is_digit c then let '(d, r) := digits s' in (c :: d, r) else ([], s)
  | [] => ([], [])
  end.

Definition hexval (c : ascii) : option nat :=
  let n := Py.code c in
  if Py.in_range 48 57 n then Some (n - 48)
  else if Py.in_range 97 102 n then Some (n - 87)
  else if Py.in_range 65 70 n then Some (n - 55)
  else None.

(** Optional minus, integer part ([0] or a non-zero digit and digits),
    optional fraction [.digits], optional exponent [e|E][+|-]digits. *)
Definition number (s : list ascii) : option (pyval * list ascii) :=
  let '(sign, s1) := match s with "-"%char :: s' => (["-"%char], s') | _ => ([], s) end in
  let int_part :=
    match s1 with
    | "0"%char :: s' => Some (["0"%char], s')
    | c :: _ => if Py.is_digit c then Some (digits s1) else None
    | [] => None
    end in
  match int_part with
  | None => None
  | Some (ip, s2) =>
    let '(fp, s3) := match s2 with
                     | "."%char :: s' => match digits s' with
                                         | ([], _) => ([], s2)
                                         | (d, r) => ("."%char :: d, r)
                                         end
                     | _ => ([], s2)
                     end in
    let '(ep, s4) := match s3 with
                     | e :: s' =>
                       if Py.in_chars "eE" e then
                         let '(sg, s'') := match s' with
                                           | c :: t => if Py.in_chars "+-" c then ([c], t) else ([], s')
                                           | [] => ([], s')
                                           end in
                         match digits s'' with
                         | ([], _) => ([], s3)
                         | (d, r) => (e :: sg ++ d, r)
                         end
                       else ([], s3)
                     | [] => ([], s3)
                     end in
    Some (PNum (string_of_list_ascii (sign ++ ip ++ fp ++ ep)), s4)
  end.

(** The body of a string literal, after the opening quote. *)
Fixpoint str_body (s : list ascii) : option (list ascii * list ascii) :=
  match s with
  | [] => None
  | c :: s' =>
    if Ascii.eqb c dq then Some ([], s')
    else if Py.code c <? 32 then None
    else if Ascii.eqb c "\" then
      match s' with
      | e :: s'' =>
        let cont (x : ascii) (r : list ascii) :=
          match str_body r with Some (b, r') => Some (x :: b, r') | None => None end in
        if Ascii.eqb e dq || Py.in_chars "\/" e then cont e s''
        else if Ascii.eqb e "b" then cont "008"%char s''
        else if Ascii.eqb e "f" then cont "012"%char s''
        else if Ascii.eqb e "n" then cont "010"%char s''
        else if Ascii.eqb e "r" then cont "013"%char s''
        else if Ascii.eqb e "t" then cont "009"%char s''
        else if Ascii.eqb e "u" then
          match s'' with
          | a :: b :: c2 :: d :: r =>
            match hexval a, hexval b, hexval c2, hexval d with
            | Some x1, Some x2, Some x3, Some x4 =>
              let v := x1 * 4096 + x2 * 256 + x3 * 16 + x4 in
              if v <? 256 then cont (ascii_of_nat v) r else None
            | _, _, _, _ => None
            end
          | _ => None
          end
        else None
      | [] => None
      end
    else match str_body s' with Some (b, r) => Some (c :: b, r) | None => None end
  end.

Fixpoint value (n : nat) (s : list ascii) : option (pyval * list ascii) :=
  match n with
  | O => None
  | S n' =>
    match s with
    | "{"%char :: s1 =>
      let fix members (k : nat) (s : list ascii) (acc : list (pyval * pyval)) :=
        match k with
        | O => None
        | S k' =>
          match skip_ws s with
          | q :: s2 => if negb (Ascii.eqb q dq) then None else
            match str_body s2 with
            | Some (key, s3) =>
              match skip_ws s3 with
              | ":"%char :: s4 =>
                match value n' (skip_ws s4) with
                | Some (v, s5) =>
                  let acc' := acc ++ [(PStr (string_of_list_ascii key), v)] in
                  match skip_ws s5 with
                  | ","%char :: s6 => members k' s6 acc'
                  | "}"%char :: s6 => Some (PDict acc', s6)
                  | _ => None
                  end
                | None => None
                end
              | _ => None
              end
            | None => None
            end
          | _ => None
          end
        end in
      match skip_ws s1 with
      | "}"%char :: s2 => Some (PDict [], s2)
      | _ => members (length s1) s1 []
      end
    | "["%char :: s1 =>
      let fix elems (k : nat) (s : list ascii) (acc : list pyval) :=
        match k with
        | O => None
        | S k' =>
          match value n' (skip_ws s) with
          | Some (v, s2) =>
            match skip_ws s2 with
            | ","%char :: s3 => elems k' s3 (acc ++ [v])
            | "]"%char :: s3 => Some (PList (acc ++ [v]), s3)
            | _ => None
            end
          | None => None
          end
        end in
      match skip_ws s1 with
      | "]"%char :: s2 => Some (PList [], s2)
      | _ => elems (length s1) s1 []
      end
    | q :: s1 =>
      if Ascii.eqb q dq then
      match str_body s1 with
      | Some (b, r) => Some (PStr (string_of_list_ascii b), r)
      | None => None
      end
      else match s with
      | "n"%char :: _ => kw "null" PNone s
      | "t"%char :: _ => kw "true" (PBool true) s
      | "f"%char :: _ => kw "false" (PBool false) s
      | "N"%char :: _ => kw "NaN" (PNum "NaN") s
      | "I"%char :: _ => kw "Infinity" (PNum "Infinity") s
      | "-"%char :: "I"%char :: _ => kw "-Infinity" (PNum "-Infinity") s
      | _ => number s
      end
    | [] => None
    end
  end.

(** [json.loads(s)] *)
Definition loads (s : string) : option pyval :=
  let l := list_ascii_of_string s in
  match value (S (length l)) (skip_ws l) with
  | Some (v, rest) => match skip_ws rest with [] => Some v | _ => None end
  | None => None
  end.

End Json.

(** Test inputs are written with [`] for the double quote. *)
Definition dqs (s : string) : string :=
  Py.map_str (fun c => if Ascii.eqb c "`" then Json.dq else c) s.


(* ------------------------------------------------------------------ *)
(** ** utils/parser.py *)
(* ------------------------------------------------------------------ *)

(** A company candidate [{'name': ..., 'website': ...}]. *)
Record company := { cname : string; cwebsite : string }.

Module Parser.
Import PyVal Re.

Section Parsers.

(** [ast.literal_eval]: a Python library function, left abstract; it
    returns a value or raises (every exception it raises is caught by the
    [except Exception] around each call). *)
Variable literal_eval : string -> res pyval.

(** The prefix handling shared by the parsers:
    [if cleaned.strip().upper().startswith("FINAL ANSWER:"):
         cleaned = cleaned.split(":", 1)[1].strip()] *)
Definition clean_final_answer (s : string) : res string :=
  if Py2.has_final_answer s then
    let! rest := Py2.after_first s ":" in Ok (Py.strip rest)
  else Ok s.

(** [urls = [str(item).strip() for item in xs
             if isinstance(item, str) and item.strip().startswith('http')]] *)
Definition url_items (xs : list pyval) : list string :=
  flat_map (fun it => match it with
                      | PStr s => if Py.startswith (Py.strip s) "http" then [Py.strip s] else []
                      | _ => []
                      end) xs.

(** Methods 1 and 2 of [parse_url_list]: [Some urls] when the method
    returns. *)
Definition url_method (decoded : option pyval) : option (list string) :=
  match decoded with
  | Some (PList xs) => match url_items xs with [] => None | urls => Some urls end
  | _ => None
  end.

(** The URL pattern of Method 3: [https?://], optional [www.], 1 to 256 host
    characters, a dot, 1 to 6 TLD characters, a word boundary, then any
    number of path characters. *)
Definition url_pattern : regex :=
  seqs [lit "http"; opt (RChr "s"); lit "://"; opt (lit "www.");
        rep 1 256 (cls_p (fun c => alnum c || Py.in_chars "-@:%._+~#=" c));
        RChr ".";
        rep 1 6 (cls_p (fun c => alnum c || Py.in_chars "()" c));
        RWordB;
        star (cls_p (fun c => alnum c || Py.in_chars "-()@:%_+.~#?&/=" c))].

Definition image_suffixes : list string :=
  [".png"; ".jpg"; ".jpeg"; ".gif"; ".css"; ".js"; ".svg"; ".webp"]%string.

(** Order-preserving removal of duplicates ([unique_urls]). *)
Fixpoint dedup_acc (acc l : list string) : list string :=
  match l with
  | [] => rev acc
  | u :: l' => if existsb (String.eqb u) acc then dedup_acc acc l' else dedup_acc (u :: acc) l'
  end.

Definition url_regex_method (cleaned : string) : list string :=
  let ms := findall0 no_flags url_pattern cleaned in
  let urls := map (Py.strip_chars (String Json.dq ".,)('")) ms in
  let urls := filter (fun u => negb (existsb (Py.endswith u) image_suffixes)) urls in
  dedup_acc [] urls.

Definition parse_url_list (agent_output : pyval) : res (list string) :=
  match agent_output with
  | PStr s =>
    let! cleaned := clean_final_answer s in
    match url_method (Json.loads cleaned) with
    | Some urls => Ok urls
    | None =>
      let lit_result := match literal_eval cleaned with Ok v => Some v | Raise _ => None end in
      match url_method lit_result with
      | Some urls => Ok urls
      | None => Ok (url_regex_method cleaned)
      end
    end
  | _ => Ok []
  end.

(** The acceptance test of methods 1 and 2 of [parse_company_data]. *)
Definition company_item (it : pyval) : list company :=
  match it with
  | PDict kvs =>
    match dict_get kvs "name", dict_get kvs "website" with
    | PStr name, PStr website =>
      if negb (String.eqb (Py.strip name) EmptyString)
         && Py.startswith (Py.strip website) "http"
         && (1 <? String.length name) && (String.length name <? 60)
      then [{| cname := Py.strip name; cwebsite := Py.strip website |}]
      else []
    | _, _ => []
    end
  | _ => []
  end.

(** Methods 1 (JSON) and 2 (literal) of [parse_company_data]. *)
Definition company_method (decoded : option pyval) : list company :=
  match decoded with
  | Some (PList xs) => flat_map company_item xs
  | _ => []
  end.

(** The three [company_patterns] (IGNORECASE|MULTILINE). *)
Definition name_cls : regex := ncls_p (fun c => Ascii.eqb c Json.dq || Py.in_chars ",
" c).
Definition url_tail : regex :=
  seqs [lit "http"; opt (RChr "s"); lit "://";
        plus (ncls_p (fun c => Py.is_space c || Ascii.eqb c Json.dq || Py.in_chars ",
" c))].
Definition oq : regex := opt (RChr Json.dq).

Definition company_pattern_1 : regex :=
  seqs [opt (alts [lit "company"; lit "name"]); star sp; RChr ":"; star sp; oq;
        RGrp 1 (rep 2 60 name_cls); oq; star sp; opt (alts [RChr ","; RChr ";"]); star sp;
        opt (alts [lit "website"; lit "url"]); star sp; RChr ":"; star sp; oq;
        RGrp 2 url_tail; oq].

Definition company_pattern_2 : regex :=
  seqs [oq; RGrp 1 (rep 2 60 name_cls); oq; star sp;
        alts [RChr "-"; RChr ":"; RChr "|"]; star sp; oq; RGrp 2 url_tail; oq].

Definition company_pattern_3 : regex :=
  seqs [oq; lit "name"; oq; star sp; alts [RChr ":"; RChr "="]; star sp; oq;
        RGrp 1 (rep 2 60 name_cls); oq; lazy_star RAny; oq;
        alts [lit "website"; lit "url"]; oq; star sp; alts [RChr ":"; RChr "="]; star sp; oq;
        RGrp 2 url_tail; oq].

Definition company_patterns := [company_pattern_1; company_pattern_2; company_pattern_3].

(** The body of [for match in matches]: validation and the
    case-insensitive duplicate check against [companies]. *)
Definition regex_accept (companies : list company) (m : string * string) : list company :=
  let name := Py.strip (fst m) in
  let website := Py.strip (snd m) in
  if negb (String.eqb name EmptyString) && Py.startswith website "http"
     && (1 <? String.length name) && (String.length name <? 60)
  then if existsb (fun c => String.eqb (Py.lower (cname c)) (Py.lower name)) companies
       then companies
       else companies ++ [{| cname := name; cwebsite := website |}]
  else companies.

Definition company_regex_method (cleaned : string) : list company :=
  fold_left (fun companies p => fold_left regex_accept (findall2 f_IM p cleaned) companies)
            company_patterns [].

(** [.strip().strip('```python').strip('```').strip()] *)
Definition strip_fences (s : string) : string :=
  Py.strip (Py.strip_chars "```" (Py.strip_chars "```python" (Py.strip s))).

Definition parse_company_data (agent_output : pyval) : res (list company) :=
  match agent_output with
  | PStr s =>
    let! cleaned0 := clean_final_answer s in
    let cleaned := strip_fences cleaned0 in
    match company_method (Json.loads cleaned) with
    | (_ :: _) as companies => Ok companies
    | [] =>
      let lit_result := match literal_eval cleaned with Ok v => Some v | Raise _ => None end in
      match company_method lit_result with
      | (_ :: _) as companies => Ok companies
      | [] => Ok (company_regex_method cleaned)
      end
    end
  | _ => Ok []
  end.

(** [parse_analysis_results] of utils/parser.py. *)
Definition email_pattern : regex :=
  seqs [plus (cls_p (fun c => alnum c || Py.in_chars "._%+-" c)); RChr "@";
        plus (cls_p (fun c => alnum c || Py.in_chars ".-" c)); RChr ".";
        RRep 2 None true (cls_p alpha)].

Definition invalid_parts : list string :=
  ["example.com"; "test"; "error"; "your"; "domain.com"; "email@"; "user@"]%string.

Definition email_ok (e : string) : bool :=
  Py.contains e "@"
  && Py.contains (List.last (Py2.split e "@") EmptyString) "."
  && negb (existsb (Py.contains (Py.lower e)) invalid_parts).

Definition stop_words : regex := alts [lit "email"; lit "contact"; lit "conclusion"].

Definition pain_pattern_1 : regex :=
  seqs [alts [seqs [lit "pain point"; opt (RChr "s")];
              seqs [lit "challenge"; opt (RChr "s")];
              seqs [lit "issue"; opt (RChr "s")]];
        alts [seqs [star sp; RChr ":"]; seqs [lazy_star RAny; RChr ":"]];
        RGrp 1 (lazy_star RAny); alts [stop_words; REndZ]].

Definition pain_pattern_2 : regex :=
  seqs [RChr "1"; cls ".)"; RGrp 1 (lazy_star RAny);
        alts [alts [seqs [RChr "2"; cls ".)"]; lit "email"; lit "contact"; lit "conclusion"]; REndZ]].

Definition pain_pattern_3 : regex :=
  seqs [lit "potential pain point"; opt (RChr "s"); RChr ":"; RGrp 1 (lazy_star RAny);
        alts [stop_words; REndZ]].

Definition pain_patterns := [pain_pattern_1; pain_pattern_2; pain_pattern_3].

(** [r'(?:\d+[\.\)]\s*[^\d\.\)]+)+'] *)
Definition numbered_pattern : regex :=
  plus (seqs [plus dig; cls ".)"; star sp;
              plus (ncls_p (fun c => Py.is_digit c || Py.in_chars ".)" c))]).

(** The [for pattern in pain_patterns] loop: the first pattern with a
    match decides, even when its first match strips to the empty string. *)
Fixpoint pain_loop (ps : list regex) (cleaned : string) : string :=
  match ps with
  | [] => EmptyString
  | p :: ps' =>
    match findall1 f_IS p cleaned with
    | m :: _ => Py.strip m
    | [] => pain_loop ps' cleaned
    end
  end.

Fixpoint join (sep : string) (l : list string) : string :=
  match l with
  | [] => EmptyString
  | [x] => x
  | x :: l' => (x ++ sep ++ join sep l')%string
  end.

Definition json_analysis (result : string) : option analysis :=
  if Py.startswith (Py.strip result) "{" && Py.endswith (Py.strip result) "}" then
    match Json.loads result with
    | Some (PDict kvs) =>
      match dict_get_def kvs "email" (PStr EmptyString),
            dict_get_def kvs "pain_points" (PStr EmptyString) with
      | PStr e, PStr p => Some {| email := Py.strip e; pain_points := Py.strip p |}
      | _, _ => None
      end
    | _ => None
    end
  else None.

Definition parse_analysis_results (result : pyval) : res analysis :=
  match result with
  | PStr result =>
    match json_analysis result with
    | Some a => Ok a
    | None =>
      let! cleaned_result := clean_final_answer result in
      let email := match filter email_ok (findall0 no_flags email_pattern cleaned_result) with
                   | e :: _ => e
                   | [] => EmptyString
                   end in
      let pain1 := pain_loop pain_patterns cleaned_result in
      let pain2 := if String.eqb pain1 EmptyString
                   then match findall0 no_flags numbered_pattern cleaned_result with
                        | [] => EmptyString
                        | ms => Py.strip (join " " ms)
                        end
                   else pain1 in
      let! pain3 :=
        (if String.eqb pain2 EmptyString && negb (String.eqb email EmptyString)
            && Py.contains cleaned_result email
         then let! after := index (Py.split1 cleaned_result email) 1 in Ok (Py.strip after)
         else Ok pain2) in
      let pain4 := if String.eqb pain3 EmptyString then Py.strip cleaned_result else pain3 in
      Ok {| email := email; pain_points := pain4 |}
    end
  | _ => Ok {| email := EmptyString; pain_points := "Analysis failed - non-string result" |}
  end.

End Parsers.
End Parser.

(* ------------------------------------------------------------------ *)
(** ** company_extractor: extraction and enrichment stages *)
(* ------------------------------------------------------------------ *)

Module Stages.
Import PyVal.

(** What [Crew.kickoff()] returns: a [CrewOutput] with its [raw] text, a
    plain [str], or any other object. *)
Inductive crew_output :=
| CrewOutput (raw : string)
| CrewStr (s : string)
| CrewOther.

(** Python truthiness. *)
Definition truthy (v : pyval) : bool :=
  match v with
  | PNone => false
  | PBool b => b
  | PNum n => negb (String.eqb n "0")
  | PStr s => negb (String.eqb s EmptyString)
  | PList l => negb (Nat.eqb (length l) 0)
  | PDict kvs => negb (Nat.eqb (length kvs) 0)
  | PObj _ => true
  end.

Section Extraction.

(** The collaborators of [extract_companies_from_url]. *)
Variable research_agent_ok : bool.        (** [agents.get('research')] is an [Agent] *)
Variable extraction_task_ok : bool.       (** [extraction_task] is a [Task] *)
Variable generic_scraper_tool : string -> res string.      (** HTTP fetch *)
Variable fallback_list_parser : string -> res (list company). (** [_fallback_list_parser] *)
Variable kickoff : res crew_output.       (** [extraction_crew.kickoff()] *)
Variable literal_eval : string -> res pyval.

(** Every call of [generic_scraper_tool] is recorded in the trace. *)
Definition fetch_and_parse (url : string) (current : list company) : list company * list string :=
  match generic_scraper_tool url with
  | Ok page_html =>
    match fallback_list_parser page_html with
    | Ok rows => (rows, [url])
    | Raise _ => (current, [url])
    end
  | Raise _ => (current, [url])
  end.

(** [extract_companies_from_url(url, agents, extraction_task)]: the
    extracted candidates and the list of URLs fetched directly. *)
Definition extract_companies_from_url (url : string) : list company * list string :=
  if negb research_agent_ok then ([], []) else
  if negb extraction_task_ok then ([], []) else
  (* [if not extracted_company_data:] -- the list is still [] here *)
  let '(extracted0, trace0) := fetch_and_parse url [] in
  match kickoff with
  | Raise _ => (extracted0, trace0)
  | Ok out =>
    let raw_output := match out with
                      | CrewOutput r => r
                      | CrewStr s => s
                      | CrewOther => EmptyString
                      end in
    if String.eqb raw_output EmptyString then (extracted0, trace0) else
    match Parser.parse_company_data literal_eval (PStr raw_output) with
    | Raise _ => (extracted0, trace0)
    | Ok [] => let '(ex, tr) := fetch_and_parse url [] in (ex, trace0 ++ tr)
    | Ok extracted => (extracted, trace0)
    end
  end.

End Extraction.

(** [analyze_company]: its body ends at the top-level
    [def _fallback_list_parser] that follows the initialisation of
    [final_company_data]; the analysis and review code after that [def]
    is unreachable code of [_fallback_list_parser] (after its [return]).
    The function therefore falls off its end and returns [None]. *)
Definition analyze_company (company_name company_website : string)
    (agents : list (string * pyval)) (segment_config client_profile : list (pyval * pyval)) : pyval :=
  let segment_name := dict_get_def segment_config "SEGMENT_NAME" (PStr "Unknown Segment") in
  let client_name := dict_get_def client_profile "CLIENT_NAME" (PStr "Our Client") in
  let final_company_data :=
    PDict [(PStr "name", PStr company_name);
           (PStr "website", PStr company_website);
           (PStr "pain_points", PStr "Initial analysis did not run");
           (PStr "contact_email", PStr EmptyString);
           (PStr "segment_name_internal", segment_name);
           (PStr "category", segment_name)] in
  PNone.

End Stages.

(* ------------------------------------------------------------------ *)
(** ** agent_runner: run-scoped deduplication *)
(* ------------------------------------------------------------------ *)

Module Runner.
Import PyVal.

(** [company_website.strip().lower().replace('www.','').rstrip('/')] *)
Definition normalize (w : string) : string :=
  Py.rstrip_chars "/" (Py.replace "www." EmptyString (Py.lower (Py.strip w))).

(** [Config.GENERIC_COMPANY_NAMES] *)
Definition GENERIC_COMPANY_NAMES : list string :=
  ["company"; "organization"; "the firm"; "client";
   "example"; "test"; "none"; "n/a"; "website"; "url"]%string.

(** [RunState]: [processed_websites_this_run] and
    [all_processed_companies]. *)
Record run_state := { processed : gset string; output : list pyval }.

Definition init_state : run_state := {| processed := ∅; output := [] |}.

(** [d[k] = v] on a dict. *)
Definition dict_set (d : pyval) (k : string) (v : pyval) : pyval :=
  match d with
  | PDict kvs => PDict (kvs ++ [(PStr k, v)])
  | _ => d
  end.

Section Loop.
Variable segment_config : list (pyval * pyval).
Variable client_profile : list (pyval * pyval).
Variable agents : list (string * pyval).

(** One iteration of [for company_dict in extracted_company_data]. *)
Definition process_candidate (segment_name target_url : string) (st : run_state)
    (company_dict : company) : run_state :=
  let company_name := cname company_dict in
  let company_website := cwebsite company_dict in
  if String.eqb company_name EmptyString || String.eqb company_website EmptyString then st else
  let normalized_website := normalize company_website in
  if bool_decide (normalized_website ∈ processed st) then st else
  if existsb (String.eqb (Py.lower company_name)) GENERIC_COMPANY_NAMES then st else
  let processed' := {[ normalized_website ]} ∪ processed st in
  let company_analysis_data :=
    Stages.analyze_company company_name company_website agents segment_config client_profile in
  let record :=
    if Stages.truthy company_analysis_data then
      dict_set (dict_set (dict_set company_analysis_data "source_url" (PStr target_url))
                         "segment_name_internal" (PStr segment_name))
               "category" (PStr segment_name)
    else
      PDict [(PStr "name", PStr company_name); (PStr "website", PStr company_website);
             (PStr "pain_points", PStr "Critical: Analysis function returned no data");
             (PStr "contact_email", PStr EmptyString);
             (PStr "source_url", PStr target_url); (PStr "category", PStr segment_name);
             (PStr "segment_name_internal", PStr segment_name)] in
  {| processed := processed'; output := output st ++ [record] |}.

(** The loops over the URLs of a segment and over their candidates. *)
Definition process_url (segment_name : string) (st : run_state)
    (u : string * list company) : run_state :=
  fold_left (process_candidate segment_name (fst u)) (snd u) st.

End Loop.

(** The segment loop of [run_lead_generation_process]: each segment with
    its configuration and the candidates extracted from each of its
    URLs. *)
Definition run_segments (agents : list (string * pyval)) (client_profile : list (pyval * pyval))
    (st : run_state)
    (segs : list (string * list (pyval * pyval) * list (string * list company))) : run_state :=
  fold_left (fun st '(segment_name, segment_config, urls) =>
               fold_left (process_url segment_config client_profile agents segment_name) urls st)
            segs st.

(** The website stored in an output record. *)
Definition record_website (r : pyval) : string :=
  match r with
  | PDict kvs => match dict_get kvs "website" with PStr w => w | _ => EmptyString end
  | _ => EmptyString
  end.

End Runner.

(* ------------------------------------------------------------------ *)
(** ** url_processor: the TLD filter of perform_search *)
(* ------------------------------------------------------------------ *)

Module Urls.
Import PyVal.

(** [disallowed_country_tlds] *)
Definition disallowed_country_tlds : list string :=
  [".ac"; ".ad"; ".ae"; ".af"; ".ag"; ".ai"; ".al"; ".am"; ".an"; ".ao";
   ".aq"; ".ar"; ".as"; ".at"; ".au"; ".aw"; ".ax"; ".az"; ".ba"; ".bb";
   ".bd"; ".be"; ".bf"; ".bg"; ".bh"; ".bi"; ".bj"; ".bm"; ".bn"; ".bo";
   ".br"; ".bs"; ".bt"; ".bv"; ".bw"; ".by"; ".bz"; ".ca"; ".cc"; ".cd";
   ".cf"; ".cg"; ".ch"; ".ci"; ".ck"; ".cl"; ".cm"; ".cn"; ".co"; ".cr";
   ".cu"; ".cv"; ".cx"; ".cy"; ".cz"; ".de"; ".dj"; ".dk"; ".dm"; ".do";
   ".dz"; ".ec"; ".ee"; ".eg"; ".er"; ".es"; ".et"; ".eu"; ".fi"; ".fj";
   ".fk"; ".fm"; ".fo"; ".fr"; ".ga"; ".gb"; ".gd"; ".ge"; ".gf"; ".gg";
   ".gh"; ".gi"; ".gl"; ".gm"; ".gn"; ".gp"; ".gq"; ".gr"; ".gs"; ".gt";
   ".gu"; ".gw"; ".gy"; ".hk"; ".hm"; ".hn"; ".hr"; ".ht"; ".hu"; ".id";
   ".ie"; ".il"; ".im"; ".in"; ".io"; ".iq"; ".ir"; ".is"; ".it"; ".je";
   ".jm"; ".jo"; ".jp"; ".ke"; ".kg"; ".kh"; ".ki"; ".km"; ".kn"; ".kp";
   ".kr"; ".kw"; ".ky"; ".kz"; ".la"; ".lb"; ".lc"; ".li"; ".lk"; ".lr";
   ".ls"; ".lt"; ".lu"; ".lv"; ".ly"; ".ma"; ".mc"; ".md"; ".me"; ".mg";
   ".mh"; ".mk"; ".ml"; ".mm"; ".mn"; ".mo"; ".mp"; ".mq"; ".mr"; ".ms";
   ".mt"; ".mu"; ".mv"; ".mw"; ".mx"; ".my"; ".mz"; ".na"; ".nc"; ".ne";
   ".nf"; ".ng"; ".ni"; ".nl"; ".no"; ".np"; ".nr"; ".nu"; ".nz"; ".om";
   ".pa"; ".pe"; ".pf"; ".pg"; ".ph"; ".pk"; ".pl"; ".pm"; ".pn"; ".pr";
   ".ps"; ".pt"; ".pw"; ".py"; ".qa"; ".re"; ".ro"; ".rs"; ".ru"; ".rw";
   ".sa"; ".sb"; ".sc"; ".sd"; ".se"; ".sg"; ".sh"; ".si"; ".sj"; ".sk";
   ".sl"; ".sm"; ".sn"; ".so"; ".sr"; ".st"; ".sv"; ".sy"; ".sz"; ".tc";
   ".td"; ".tf"; ".tg"; ".th"; ".tj"; ".tk"; ".tl"; ".tm"; ".tn"; ".to";
   ".tp"; ".tr"; ".tt"; ".tv"; ".tw"; ".tz"; ".ua"; ".ug"; ".uk"; ".uy";
   ".uz"; ".va"; ".vc"; ".ve"; ".vg"; ".vi"; ".vn"; ".vu"; ".wf"; ".ws";
   ".ye"; ".yt"; ".za"; ".zm"; ".zw"]%string.

Definition in_list (s : string) (l : list string) : bool := existsb (String.eqb s) l.

Section Filter.

(** [urlparse(url_str).hostname]: a hostname, [None], or an exception. *)
Variable hostname_of : string -> res (option string).

(** The body of [for url_str in url_list]: [true] when the URL is
    appended to [filtered_urls]. *)
Definition keep_url (url_str : string) : bool :=
  match hostname_of url_str with
  | Raise _ => true
  | Ok None => true
  | Ok (Some hostname) =>
    if String.eqb hostname EmptyString then true else
    let domain_parts := Py2.split (Py.lower hostname) "." in
    let is_disallowed :=
      if 2 <=? length domain_parts then
        let p1 := List.last domain_parts EmptyString in
        let p2 := nth (length domain_parts - 2) domain_parts EmptyString in
        if in_list ("." ++ p1) disallowed_country_tlds then true
        else (3 <=? length domain_parts)
             && in_list ("." ++ p2 ++ "." ++ p1) disallowed_country_tlds
      else false in
    negb is_disallowed
  end.

Definition tld_filter (url_list : list string) : list string := filter keep_url url_list.

End Filter.

(** A model of [urllib.parse.urlparse(u).hostname] for URLs without
    brackets or a percent sign: the scheme is removed when [u] starts
    with letters followed by [:], the network location follows [//] up to
    the first of [/?#], the user information up to the last [@] and the
    port after the first [:] are dropped, and the result is lower-cased;
    an empty host gives [None]. *)
Definition scheme_char (c : ascii) : bool :=
  Re.alnum c || Py.in_chars "+-." c.

Fixpoint take_while (p : ascii -> bool) (s : string) : string :=
  match s with
  | EmptyString => EmptyString
  | String c s' => if p c then String c (take_while p s') else EmptyString
  end.

Definition urlparse_hostname (url : string) : res (option string) :=
  let rest :=
    match Py.find url ":" with
    | Some (S _ as i) =>
      let sch := substring 0 i url in
      if Re.alpha (ascii_of_nat (Py.code (match get 0 url with Some c => c | None => " "%char end)))
         && forallb scheme_char (list_ascii_of_string sch)
      then substring (S i) (String.length url) url else url
    | _ => url
    end in
  if Py.startswith rest "//" then
    let netloc := take_while (fun c => negb (Py.in_chars "/?#" c))
                             (substring 2 (String.length rest) rest) in
    let hostinfo := List.last (Py2.split netloc "@") EmptyString in
    let hostname := take_while (fun c => negb (Ascii.eqb c ":")) hostinfo in
    if String.eqb hostname EmptyString then Ok None else Ok (Some (Py.lower hostname))
  else Ok None.

End Urls.

(* ------------------------------------------------------------------ *)
(** ** utils/error_handler.retry *)
(* ------------------------------------------------------------------ *)

Module Retry.
Import PyVal.
Open Scope Z_scope.

(** [if "rate limit" in str(e).lower() or "timeout" in str(e).lower()] *)
Definition retriable (e : pyexc) : bool :=
  Py.contains (Py.lower (exc_msg e)) "rate limit" || Py.contains (Py.lower (exc_msg e)) "timeout".

(** What [time.sleep] raises for a negative length. *)
Definition sleep_error : pyexc :=
  {| exc_class := "ValueError"; exc_msg := "sleep length must be non-negative" |}.

Section Wrapper.
Context {A : Type}.

(** [except exceptions as e]: whether [e] is an instance of one of the
    configured exception classes. *)
Variable exceptions : pyexc -> bool.
(** The outcome of the [k]-th call of the wrapped function. *)
Variable func : nat -> res A.
Variable backoff : Z.

(** The [while mtries > 1] loop, [n] being [mtries - 1], [k] the number
    of calls made so far; the result, the arguments of the [time.sleep]
    calls that returned, in order, and the number of calls.  A negative
    [mdelay] makes [time.sleep] raise [ValueError]; raised inside the
    [except] clause, it leaves the wrapper. *)
Fixpoint retry_loop (n k : nat) (mdelay : Z) : res A * list Z * nat :=
  match n with
  | O => (func k, [], S k)                          (* final attempt *)
  | S n' =>
    match func k with
    | Ok v => (Ok v, [], S k)
    | Raise e =>
      if exceptions e && retriable e then
        if mdelay <? 0 then (Raise sleep_error, [], S k)   (* time.sleep raises *)
        else
          let '(r, sleeps, calls) := retry_loop n' (S k) (mdelay * backoff) in
          (r, mdelay :: sleeps, calls)
      else (Raise e, [], S k)                       (* raise *)
    end
  end.

(** [wrapper(...)] of [retry(max_attempts, delay, backoff,
    exceptions)(func)]. *)
Definition wrapper (max_attempts delay : Z) : res A * list Z * nat :=
  retry_loop (Z.to_nat (max_attempts - 1)) 0 delay.

End Wrapper.

(** The exception classes of the only use in the repository,
    [@retry(max_attempts=3, delay=2, backoff=2,
    exceptions=(requests.RequestException,))] in
    tools/unified_email_finder.py; the subclasses of [RequestException]
    raised by requests are listed by name. *)
Definition request_exception (e : pyexc) : bool :=
  Urls.in_list (exc_class e)
    ["RequestException"; "ConnectionError"; "HTTPError"; "Timeout"; "ConnectTimeout";
     "ReadTimeout"; "TooManyRedirects"; "URLRequired"; "MissingSchema"; "InvalidSchema";
     "InvalidURL"; "InvalidHeader"; "ChunkedEncodingError"; "ContentDecodingError";
     "StreamConsumedError"; "RetryError"; "SSLError"; "ProxyError"; "JSONDecodeError"]%string.

End Retry.

(* ------------------------------------------------------------------ *)
(** ** utils/api_cache *)
(* ------------------------------------------------------------------ *)

Module Cache.
Import PyVal.
Open Scope Z_scope.

(** [{"value": value, "timestamp": time.time()}] *)
Record entry := { value : pyval; timestamp : Z }.

Record APICache := { cache : gmap string entry; ttl_seconds : Z }.

Definition is_none (v : pyval) : bool := match v with PNone => true | _ => false end.

(** [APICache.get(key)] at time [now]: the value returned and the new
    cache (an expired entry is deleted). *)
Definition get (now : Z) (key : string) (c : APICache) : pyval * APICache :=
  match cache c !! key with
  | None => (PNone, c)
  | Some en =>
    if ttl_seconds c <? now - timestamp en
    then (PNone, {| cache := delete key (cache c); ttl_seconds := ttl_seconds c |})
    else (value en, c)
  end.

(** [APICache.set(key, value)] at time [now]. *)
Definition set (now : Z) (key : string) (v : pyval) (c : APICache) : APICache :=
  {| cache := <[key := {| value := v; timestamp := now |}]> (cache c);
     ttl_seconds := ttl_seconds c |}.

(** The [wrapper] of [APICache.cached] and of [cached_api_call]: [key] is
    [_generate_key(func.__name__, args, kwargs)], [result] what
    [func(...)] returns, [t_get] and [t_set] the times of the
    [get] and of the [set]; the returned value, the new cache, and whether
    [func] was called. *)
Definition cached_call (key : string) (result : pyval) (t_get t_set : Z) (c : APICache)
    : pyval * APICache * bool :=
  let '(cached_result, c1) := get t_get key c in
  if negb (is_none cached_result) then (cached_result, c1, false)
  else (result, set t_set key result c1, true).

End Cache.

(* ------------------------------------------------------------------ *)
(** ** api_cache: [APICache._generate_key] *)
(* ------------------------------------------------------------------ *)

Module CacheKey.
Import PyVal.

(** Python's order on [str]: lexicographic on the code points. *)
Fixpoint str_ltb (a b : string) : bool :=
  match a, b with
  | EmptyString, String _ _ => true
  | String c a', String d b' =>
    if Py.code c <? Py.code d then true
    else if Py.code c =? Py.code d then str_ltb a' b' else false
  | _, EmptyString => false
  end.

(** [sorted(kwargs.keys())], each key with its value (the keys of
    [kwargs] are distinct): an insertion sort. *)
Fixpoint insert_kw (kv : string * pyval) (l : list (string * pyval)) : list (string * pyval) :=
  match l with
  | [] => [kv]
  | kv' :: l' => if str_ltb (fst kv) (fst kv') then kv :: l else kv' :: insert_kw kv l'
  end.

Definition sort_kwargs (kwargs : list (string * pyval)) : list (string * pyval) :=
  fold_right insert_kw [] kwargs.

Section Key.
(** [hashlib.md5(call_str.encode()).hexdigest()] *)
Variable md5_hexdigest : string -> string.
(** [str(x)]; the f-string [f"{k}={v}"] formats [v] as [str(v)] for the
    types of both branches of the [isinstance] test. *)
Variable py_str : pyval -> string.

(** [_generate_key(func_name, args, kwargs)]: both branches of each
    [isinstance] test append the same text. *)
Definition generate_key (func_name : string) (args : list pyval)
    (kwargs : list (string * pyval)) : string :=
  let key_parts :=
    func_name :: map py_str args
              ++ map (fun '(k, v) => (k ++ "=" ++ py_str v)%string) (sort_kwargs kwargs) in
  md5_hexdigest (Parser.join "|" key_parts).

End Key.
End CacheKey.

(* ------------------------------------------------------------------ *)
(** ** company_extractor: [_fallback_list_parser] *)
(* ------------------------------------------------------------------ *)

Module Fallback.
Import PyVal Re.

(** [s.split()]: the maximal runs of non-whitespace characters. *)
Fixpoint split_ws_acc (cur : list ascii) (s : list ascii) : list string :=
  match s with
  | [] => match cur with [] => [] | _ => [string_of_list_ascii (rev cur)] end
  | c :: s' =>
    if Py.is_space c then
      match cur with
      | [] => split_ws_acc [] s'
      | _ => string_of_list_ascii (rev cur) :: split_ws_acc [] s'
      end
    else split_ws_acc (c :: cur) s'
  end.

Definition split_ws (s : string) : list string := split_ws_acc [] (list_ascii_of_string s).

(** [re.fullmatch(r, s)]: a match from position 0 that ends at the end
    of [s] (the continuation rejects every other end, which makes the
    matcher backtrack). *)
Definition fullmatch (fl : flags) (r : regex) (s : string) : bool :=
  let inp := list_ascii_of_string s in
  match m fl inp r 0 [] (fun j c => if j =? length inp then Some (j, c) else None) with
  | Some _ => true
  | None => false
  end.

(** [r"[A-Za-z][A-Za-z0-9 &.,'()-]{4,}"] *)
Definition li_pattern : regex :=
  seqs [cls_p alpha; RRep 4 None true (cls_p (fun c => alnum c || Py.in_chars " &.,'()-" c))].

(** What BeautifulSoup gives the parser: for each [tr] of
    [soup.select("table.wikitable tr")] the texts
    [td.get_text(" ", strip=True)] of its [td] cells, and for each [li] of
    [soup.select("ul li, ol li")] its text [li.get_text(" ", strip=True)]. *)
Record soup := { wikitable_rows : list (list string); list_items : list string }.

(** The body of [for tr in soup.select("table.wikitable tr")]. *)
Definition table_row (tds : list string) : list company :=
  if 2 <=? length tds then
    let name := nth 1 tds EmptyString in
    if negb (String.eqb name EmptyString) && (1 <? length (split_ws name))
    then [{| cname := name; cwebsite := EmptyString |}]
    else []
  else [].

(** The body of [for li in soup.select("ul li, ol li")]. *)
Definition li_row (txt : string) : list company :=
  if fullmatch no_flags li_pattern txt
  then [{| cname := txt; cwebsite := EmptyString |}]
  else [].

(** [_fallback_list_parser(html)] on the parsed document. *)
Definition fallback_list_parser (sp : soup) : list company :=
  let rows := flat_map table_row (wikitable_rows sp) in
  match rows with
  | [] => flat_map li_row (list_items sp)
  | _ => rows
  end.

End Fallback.

(* ------------------------------------------------------------------ *)
(** ** agent_runner: segment selection and the local summary *)
(* ------------------------------------------------------------------ *)

Module Segments.
Import PyVal.

Section Select.

(** [a == b] when [a] is not a [str]; left abstract. *)
Variable eq_other : pyval -> pyval -> bool.

(** [a == b]: a [str] equals only the same [str] (the values of a JSON
    request and of the profile define no other equality with a [str]). *)
Definition py_eq (a b : pyval) : bool :=
  match a with
  | PStr x => match b with PStr y => String.eqb x y | _ => false end
  | _ => eq_other a b
  end.

(** [config.get("SEGMENT_NAME")] *)
Definition segment_name (config : list (pyval * pyval)) : pyval :=
  dict_get config "SEGMENT_NAME".

(** How the segment determination of [run_lead_generation_process] ends:
    the segments to process, or one of its two early returns. *)
Inductive selection :=
| Process (segments : list (list (pyval * pyval)))
| NoValidSegments      (** "No valid segments selected or found for processing." *)
| NoSegments.          (** "No segments to process." *)

(** Lines 96-121 of agent_runner.py. *)
Definition select_segments (selected_segment_names : pyval)
    (all_defined_segment_configs : list (list (pyval * pyval))) : selection :=
  let chosen :=
    match selected_segment_names with
    | PList names =>
      if Stages.truthy selected_segment_names then
        Some (fold_left
                (fun segments_to_actually_process name_to_find =>
                   match List.find (fun config => py_eq (segment_name config) name_to_find)
                                   all_defined_segment_configs with
                   | Some config => segments_to_actually_process ++ [config]
                   | None => segments_to_actually_process
                   end) names [])
      else None
    | _ => None
    end in
  match chosen with
  | Some [] => NoValidSegments
  | Some segments_to_actually_process => Process segments_to_actually_process
  | None =>
    match all_defined_segment_configs with
    | [] => NoSegments
    | _ => Process all_defined_segment_configs
    end
  end.

End Select.
End Segments.

Module RunnerMain.
Import PyVal.

Section Summary.

(** [str(x)] for a value that is not a [str]. *)
Variable py_str : pyval -> string.

Definition failure_messages : list string :=
  ["Initial analysis did not run"; "Analysis failed - non-string result";
   "Analysis failed - Task creation error"; "Analysis failed to return data";
   "Critical: Analysis function returned no data"]%string.

(** The condition of the generator in [successful_analyses_count]
    (the [__main__] block of agent_runner.py). *)
Definition successful (company_data : pyval) : bool :=
  match company_data with
  | PDict kvs =>
    let pp := dict_get kvs "pain_points" in
    let pp_str := match dict_get_def kvs "pain_points" (PStr EmptyString) with
                  | PStr s => s
                  | v => py_str v
                  end in
    negb (match pp with PStr p => Urls.in_list p failure_messages | _ => false end)
    && negb (Py.startswith pp_str "Analysis skipped")
    && negb (Py.startswith pp_str "Analysis failed (")
  | _ => false
  end.

Definition successful_analyses_count (processed_leads : list pyval) : nat :=
  length (filter successful processed_leads).

End Summary.
End RunnerMain.

(* ------------------------------------------------------------------ *)
(** ** output_manager.write_to_csv *)
(* ------------------------------------------------------------------ *)

Module Csv.
Import PyVal.

Definition CSV_EXPORT_HEADER : list string :=
  ["Company Name"; "Website"; "Potential Pain Points"; "Contact Email";
   "Source URL"; "Date Added"; "Is Duplicate"; "Lead Category"]%string.

(** The [for company_info in data] loop: the rows written, each as the
    values of [filtered_row] in the order of [CSV_EXPORT_HEADER], and
    whether the loop completed.  A name that is not a [str] makes
    [.strip()] raise [AttributeError] ([PObj] stands for an object
    without a [strip] method); the [except Exception] around the [with]
    block catches it and the remaining entries are not written. *)
Fixpoint write_rows (today_date : string) (processed_company_names_in_batch : list string)
    (data : list pyval) : list (list pyval) * bool :=
  match data with
  | [] => ([], true)
  | company_info :: data' =>
    match company_info with
    | PDict kvs =>
      match dict_get_def kvs "name" (PStr EmptyString) with
      | PStr n =>
        let company_name := Py.strip n in
        let lead_category := dict_get_def kvs "category" (PStr "Unknown Segment") in
        if String.eqb company_name EmptyString
        then write_rows today_date processed_company_names_in_batch data'
        else if Urls.in_list (Py.lower company_name) Runner.GENERIC_COMPANY_NAMES
        then write_rows today_date processed_company_names_in_batch data'
        else
          let is_duplicate_in_batch := Urls.in_list company_name processed_company_names_in_batch in
          let row_to_write :=
            [PStr company_name;
             dict_get_def kvs "website" (PStr "N/A");
             dict_get_def kvs "pain_points" (PStr EmptyString);
             dict_get_def kvs "contact_email" (PStr EmptyString);
             dict_get_def kvs "source_url" (PStr "N/A");
             PStr today_date;
             PStr (if is_duplicate_in_batch then "True" else "False");
             lead_category] in
          let '(rows, completed) :=
            write_rows today_date (company_name :: processed_company_names_in_batch) data' in
          (row_to_write :: rows, completed)
      | _ => ([], false)
      end
    | _ => write_rows today_date processed_company_names_in_batch data'
    end
  end.

(** What [write_to_csv(data, filename)] leaves: no file opened (for an
    empty [data]), or the file with its header and the rows written. *)
Inductive csv_outcome :=
| NotOpened
| Written (rows : list (list pyval)) (completed : bool).

Definition write_to_csv (today_date : string) (data : list pyval) : csv_outcome :=
  match data with
  | [] => NotOpened
  | _ => let '(rows, completed) := write_rows today_date [] data in Written rows completed
  end.

(** The name in the first cell of a row. *)
Definition row_name (row : list pyval) : string :=
  match row with PStr n :: _ => n | _ => EmptyString end.

End Csv.


(* ------------------------------------------------------------------ *)
(** ** Auxiliary definitions of the proofs and test inputs *)
(* ------------------------------------------------------------------ *)

Module RunnerFacts.
Import PyVal Runner.

(** Whether [process_candidate] skips a candidate when the websites seen
    so far are [P]. *)
Definition skipped (P : gset string) (c : company) : bool :=
  String.eqb (cname c) EmptyString || String.eqb (cwebsite c) EmptyString
  || bool_decide (normalize (cwebsite c) ∈ P)
  || existsb (String.eqb (Py.lower (cname c))) GENERIC_COMPANY_NAMES.

(** Whether a candidate passes the name checks of [process_candidate]:
    non-empty name and website, and a name that is not generic.  Only such
    a candidate can have its website added to the processed set. *)
Definition name_admitted (c : company) : bool :=
  negb (String.eqb (cname c) EmptyString) && negb (String.eqb (cwebsite c) EmptyString)
  && negb (existsb (String.eqb (Py.lower (cname c))) GENERIC_COMPANY_NAMES).

(** The normalized websites of the records produced so far. *)
Definition keys (st : run_state) : list string :=
  map (fun r => normalize (record_website r)) (output st).

(** A candidate together with its segment name, segment configuration and
    source URL. *)
Definition cand : Type := (string * list (pyval * pyval) * string * company)%type.

Definition flatten (segs : list (string * list (pyval * pyval) * list (string * list company)))
    : list cand :=
  flat_map (fun '(sn, cfg, urls) =>
              flat_map (fun '(u, cs) => map (fun c => (sn, cfg, u, c)) cs) urls) segs.

Definition cand_step agents client_profile (st : run_state) (x : cand) : run_state :=
  let '(sn, cfg, u, c) := x in process_candidate cfg client_profile agents sn u st c.

(** The invariant of the run: no two records share a normalized website,
    and each of them has been recorded as processed. *)
Definition Inv (st : run_state) : Prop :=
  NoDup (keys st) /\ forall k, In k (keys st) -> k ∈ processed st.

(** Two segments of a run; the second candidate repeats the website of
    the first one. *)
Definition sample_segments : list (string * list (pyval * pyval) * list (string * list company)) :=
  [("Fintech"%string, [(PStr "SEGMENT_NAME", PStr "Fintech")],
    [("https://list.example/a"%string,
      [{| cname := "Acme"; cwebsite := "https://www.Acme.com/" |};
       {| cname := "Acme Inc"; cwebsite := "https://acme.com" |};
       {| cname := "Beta"; cwebsite := "https://beta.io" |}])])].

(** The first two candidates of [sample_segments], flattened. *)
Definition sample_first : cand :=
  ("Fintech"%string, [(PStr "SEGMENT_NAME", PStr "Fintech")], "https://list.example/a"%string,
   {| cname := "Acme"; cwebsite := "https://www.Acme.com/" |}).
Definition sample_second : cand :=
  ("Fintech"%string, [(PStr "SEGMENT_NAME", PStr "Fintech")], "https://list.example/a"%string,
   {| cname := "Acme Inc"; cwebsite := "https://acme.com" |}).

(** One segment whose first candidate has a generic name and shares its
    website with the second one. *)
Definition generic_first_segments
    : list (string * list (pyval * pyval) * list (string * list company)) :=
  [("Fintech"%string, [(PStr "SEGMENT_NAME", PStr "Fintech")],
    [("https://list.example/b"%string,
      [{| cname := "Company"; cwebsite := "https://acme.com" |};
       {| cname := "Acme"; cwebsite := "https://acme.com" |}])])].

End RunnerFacts.

Module UrlFacts.

(** The shape of every denylist entry: a dot and two characters other
    than a dot. *)
Definition tld_shape (e : string) : bool :=
  match e with
  | String d (String c1 (String c2 EmptyString)) =>
    Ascii.eqb d "." && negb (Ascii.eqb c1 ".") && negb (Ascii.eqb c2 ".")
  | _ => false
  end.

End UrlFacts.

Module RetryFacts.
Import PyVal.
Open Scope Z_scope.



(** A request failing twice with a timeout, then returning 7. *)
Definition func_timeout (k : nat) : res Z :=
  if Nat.ltb k 2 then Raise {| exc_class := "ConnectionError"; exc_msg := "Connection timeout" |}
  else Ok 7.


End RetryFacts.

Module CacheFacts.
Import PyVal Cache.
Open Scope Z_scope.

Definition c_empty : APICache := {| cache := ∅; ttl_seconds := 3600 |}.
Definition c_none : APICache :=
  {| cache := {[ "k"%string := {| value := PNone; timestamp := 0 |} ]}; ttl_seconds := 3600 |}.
Definition c_val : APICache :=
  {| cache := {[ "k"%string := {| value := PStr "v"; timestamp := 0 |} ]}; ttl_seconds := 3600 |}.

End CacheFacts.

Module ParserFacts.
Import PyVal.

(** The shape of a company the Parsing Cascade returns. *)
Definition well_formed (c : company) : Prop :=
  cname c <> EmptyString /\ Py.strip (cname c) = cname c /\ String.length (cname c) < 60
  /\ Py.startswith (cwebsite c) "http" = true /\ Py.strip (cwebsite c) = cwebsite c.

End ParserFacts.

Module SegmentFacts.
Import PyVal Segments.

(** For each requested name, the first configuration with that
    [SEGMENT_NAME], if any. *)
Definition chosen_configs (eq_other : pyval -> pyval -> bool) (all : list (list (pyval * pyval)))
    (names : list pyval) : list (list (pyval * pyval)) :=
  flat_map (fun name_to_find =>
              match List.find (fun config => py_eq eq_other (segment_name config) name_to_find) all with
              | Some config => [config]
              | None => []
              end) names.

Definition cfg_a : list (pyval * pyval) := [(PStr "SEGMENT_NAME", PStr "A")].
Definition cfg_b : list (pyval * pyval) := [(PStr "SEGMENT_NAME", PStr "B")].

End SegmentFacts.

Module CsvFacts.
Import PyVal.

(** Three leads, the third one a repeat of the first name. *)
Definition leads : list pyval :=
  [PDict [(PStr "name", PStr " Acme "); (PStr "website", PStr "https://acme.com")];
   PDict [(PStr "name", PStr "Beta"); (PStr "category", PStr "Fintech")];
   PDict [(PStr "name", PStr "Acme"); (PStr "website", PStr "https://acme2.com")]].

(** A lead whose name is [None]. *)
Definition bad_lead : list (pyval * pyval) := [(PStr "name", PNone)].

End CsvFacts.

Definition dir_url : string := "https://directory.example/list".

(** The JSON list that the collaborator returns in the extraction example. *)
Definition crew_json : string :=
  dqs "[{`name`: `Acme Corp`, `website`: `https://acme.com`}]".

Definition cascade_json : string :=
  dqs "[{`name`: ` A `, `website`: `http://a.com`}, {`name`: `Acme`, `website`: `http://acme.com`}, {`name`: `ACME`, `website`: `http://b.com`}]".
(* ================================================================== *)
(** * Properties *)
(* ================================================================== *)

(** ** Sanity checks of the primitives *)

Example py_strip_ex : Py.strip "  a b
" = "a b"%string.
Proof. reflexivity. Qed.
Example py_replace_ex : Py.replace "www." EmptyString "wwww.ww." = "www."%string.
Proof. reflexivity. Qed.

Example re_search_ex :
  Re.search_group1 Re.f_IS
    (Re.seqs [Re.lit "a"; Re.RGrp 1 (Re.lazy_star Re.RAny); Re.alts [Re.lit "c"; Re.REndZ]])
    "xAbbc" = Some "bb"%string.
Proof. reflexivity. Qed.

Example json_loads_ex :
  Json.loads (dqs "[{`name`: `Acme Corp`, `website`: `https://acme.com`}, 1.5e3, null]")
  = Some (PyVal.PList [PyVal.PDict [(PyVal.PStr "name", PyVal.PStr "Acme Corp");
                                    (PyVal.PStr "website", PyVal.PStr "https://acme.com")];
                       PyVal.PNum "1.5e3"; PyVal.PNone]).
Proof. reflexivity. Qed.

(** ** Enrichment: [analyze_company] *)

Lemma analyze_company_value (company_name company_website : string)
    (agents : list (string * PyVal.pyval)) (segment_config client_profile : list (PyVal.pyval * PyVal.pyval)) :
  Stages.analyze_company company_name company_website agents segment_config client_profile = PyVal.PNone.
Proof. reflexivity. Qed.

(** C1 (code bug).  [analyze_company] returns [None] for every candidate
    and every agents / segment / client configuration: its body ends with
    the assignment of [final_company_data], so it never returns a mapping,
    and the run loop then stores the record whose [pain_points] is
    "Critical: Analysis function returned no data". *)
Theorem analyze_company_returns_None :
  forall (company_name company_website : string)
         (agents : list (string * PyVal.pyval))
         (segment_config client_profile : list (PyVal.pyval * PyVal.pyval)),
    Stages.analyze_company company_name company_website agents segment_config client_profile
    = PyVal.PNone
    /\ Stages.truthy
         (Stages.analyze_company company_name company_website agents segment_config client_profile)
       = false.
Proof.
  intros company_name company_website agents segment_config client_profile.
  rewrite analyze_company_value. split; reflexivity.
Qed.

(** ** Extraction: [extract_companies_from_url] *)

(** Each call of [fetch_and_parse] fetches the URL once. *)
Lemma fetch_and_parse_trace scraper fallback url cur :
  snd (Stages.fetch_and_parse scraper fallback url cur) = [url].
Proof.
  unfold Stages.fetch_and_parse.
  destruct (scraper url) as [page|e]; [destruct (fallback page)|]; reflexivity.
Qed.

(** C2 (code bug).  Whenever the research agent and the task are valid,
    [extract_companies_from_url] fetches the URL directly before the
    collaborator is even invoked (the guard [if not extracted_company_data]
    tests the list just initialised to []), whatever the Parsing Cascade
    later yields; e.g. the collaborator returns a JSON list that parses to
    one candidate and the URL has still been fetched once. *)
Theorem extract_fetches_before_parsing :
  (forall (scraper : string -> PyVal.res string)
          (fallback : string -> PyVal.res (list company))
          (kickoff : PyVal.res Stages.crew_output)
          (literal_eval : string -> PyVal.res PyVal.pyval) (url : string),
      exists rest,
        snd (Stages.extract_companies_from_url true true scraper fallback kickoff literal_eval url)
        = url :: rest)
  /\ Parser.parse_company_data (fun _ => PyVal.Ok PyVal.PNone) (PyVal.PStr crew_json)
     = PyVal.Ok [{| cname := "Acme Corp"; cwebsite := "https://acme.com" |}]
  /\ Stages.extract_companies_from_url true true
       (fun _ => PyVal.Ok "<html></html>"%string) (fun _ => PyVal.Ok [])
       (PyVal.Ok (Stages.CrewOutput crew_json)) (fun _ => PyVal.Ok PyVal.PNone) dir_url
     = ([{| cname := "Acme Corp"; cwebsite := "https://acme.com" |}], [dir_url]).
Proof.
  split; [|split].
  - intros scraper fallback kickoff literal_eval url.
    unfold Stages.extract_companies_from_url. cbn [negb].
    pose proof (fetch_and_parse_trace scraper fallback url []) as Ht.
    destruct (Stages.fetch_and_parse scraper fallback url []) as [ex0 tr0].
    cbn [snd] in Ht. subst tr0.
    destruct kickoff as [out|e]; [|exists []; reflexivity].
    destruct (String.eqb _ EmptyString); [exists []; reflexivity|].
    destruct (Parser.parse_company_data _ _) as [[|c cs]|e];
      [| exists []; reflexivity | exists []; reflexivity].
    pose proof (fetch_and_parse_trace scraper fallback url []) as Ht.
    destruct (Stages.fetch_and_parse scraper fallback url []) as [ex1 tr1].
    cbn [snd] in Ht. subst tr1. exists [url]. reflexivity.
  - vm_compute. reflexivity.
  - vm_compute. reflexivity.
Qed.

(** ** [company_extractor.parse_analysis_results] on scenario C *)

(** Every address starting with [info@] is refused by the denylist, so
    the later test against placeholder domains never sees one. *)
Lemma extractor_info_refused (e : string) :
  Py.startswith (Py.lower e) "info@" = true -> Extractor.email_ok e = false.
Proof.
  intros H. unfold Extractor.email_ok.
  assert (Hc : Py.contains (Py.lower e) "info@" = true).
  { unfold Py.contains. destruct (Py.lower e); [discriminate|].
    unfold Py.find; fold Py.find. rewrite H. reflexivity. }
  assert (Hin : existsb (Py.contains (Py.lower e)) Extractor.invalid_email_domains_or_parts = true).
  { apply existsb_exists. exists "info@"%string. split; [simpl; tauto | exact Hc]. }
  cbv zeta. rewrite Hin. reflexivity.
Qed.

Lemma extractor_info_refused_witness :
  Py.startswith (Py.lower "Info@acme.com") "info@" = true
  /\ Extractor.email_ok "Info@acme.com" = false.
Proof.
  assert (H : Py.startswith (Py.lower "Info@acme.com") "info@" = true) by reflexivity.
  split; [exact H|]. exact (extractor_info_refused "Info@acme.com" H).
Defined.

(** C3 (code bug).  On the analysis output of scenario C the parser of
    company_extractor returns the empty email (the address [info@acme.com]
    is refused because every [info@] address is denylisted) and the pain
    points "X" (the short block after "Pain Points:" is replaced by the
    first item of the numbered list); the parser of utils/parser.py
    returns the email but the pain points "1. X\n2. Y" with the markers
    kept. *)
Theorem scenario_C_parse :
  Extractor.parse_analysis_results (PyVal.PStr scenario_C)
  = PyVal.Ok {| email := EmptyString; pain_points := "X" |}
  /\ Parser.parse_analysis_results (PyVal.PStr scenario_C)
     = PyVal.Ok {| email := "info@acme.com"; pain_points := "1. X
2. Y" |}.
Proof. split; vm_compute; reflexivity. Qed.

(** ** The Parsing Cascade: [parse_company_data] *)

(** C6 (code bug).  The structured-data stage tests the length of the
    raw name but returns the stripped one, and it drops no case-insensitive
    duplicate: on [cascade_json] it returns the one-character name "A" and
    both "Acme" and "ACME", whatever [ast.literal_eval] does. *)
Theorem cascade_json_stage_accepts :
  forall literal_eval : string -> PyVal.res PyVal.pyval,
    Parser.parse_company_data literal_eval (PyVal.PStr cascade_json)
    = PyVal.Ok [{| cname := "A"; cwebsite := "http://a.com" |};
                {| cname := "Acme"; cwebsite := "http://acme.com" |};
                {| cname := "ACME"; cwebsite := "http://b.com" |}].
Proof. intros literal_eval. vm_compute. reflexivity. Qed.
(** ** Website normalization *)

Lemma lower_char_idem (c : ascii) : Py.lower_char (Py.lower_char c) = Py.lower_char c.
Proof. destruct c as [[] [] [] [] [] [] [] []]; reflexivity. Qed.

Lemma lower_lower (s : string) : Py.lower (Py.lower s) = Py.lower s.
Proof.
  induction s as [|c s IH]; [reflexivity|].
  unfold Py.lower in *. cbn [Py.map_str]. rewrite lower_char_idem, IH. reflexivity.
Qed.

Lemma lower_app (s t : string) : Py.lower (s ++ t) = (Py.lower s ++ Py.lower t)%string.
Proof.
  induction s as [|c s IH]; [reflexivity|].
  unfold Py.lower in *. simpl. rewrite IH. reflexivity.
Qed.

Lemma lower_substring (n m : nat) (s : string) :
  Py.lower (substring n m s) = substring n m (Py.lower s).
Proof.
  revert n m. induction s as [|c s IH]; intros n m.
  - destruct n, m; reflexivity.
  - destruct n as [|n]; destruct m as [|m]; cbn [substring]; try reflexivity.
    + unfold Py.lower in *. cbn [Py.map_str]. rewrite IH. reflexivity.
    + apply IH.
    + apply IH.
Qed.

Lemma lower_cons_inv (c : ascii) (s : string) :
  Py.lower (String c s) = String c s -> Py.lower_char c = c /\ Py.lower s = s.
Proof. unfold Py.lower. cbn [Py.map_str]. intros H. injection H. auto. Qed.

Lemma lower_replace_fuel (n : nat) (old new s : string) :
  Py.lower new = new -> Py.lower s = s ->
  Py.lower (Py.replace_fuel n old new s) = Py.replace_fuel n old new s.
Proof.
  intros Hn. revert s. induction n as [|n IH]; intros s Hs; [exact Hs|].
  cbn [Py.replace_fuel]. destruct (Py.startswith s old).
  - rewrite lower_app, Hn, IH; [reflexivity|].
    rewrite lower_substring, Hs. reflexivity.
  - destruct s as [|c s']; [reflexivity|].
    apply lower_cons_inv in Hs as [Hc Hs'].
    unfold Py.lower in *. cbn [Py.map_str]. rewrite Hc, IH; [reflexivity|exact Hs'].
Qed.

Lemma lower_list (s : string) :
  Py.lower s = string_of_list_ascii (map Py.lower_char (list_ascii_of_string s)).
Proof.
  induction s as [|c s IH]; [reflexivity|].
  unfold Py.lower in *. cbn. rewrite IH. reflexivity.
Qed.

Lemma lower_rev_str (s : string) : Py.lower (Py.rev_str s) = Py.rev_str (Py.lower s).
Proof.
  unfold Py.rev_str. rewrite !lower_list, !list_ascii_of_string_of_list_ascii, map_rev.
  reflexivity.
Qed.

Lemma lower_lstrip (p : ascii -> bool) (s : string) :
  Py.lower s = s -> Py.lower (Py.lstrip_by p s) = Py.lstrip_by p s.
Proof.
  induction s as [|c s IH]; intros Hs; [reflexivity|].
  cbn [Py.lstrip_by]. destruct (p c); [|exact Hs].
  apply IH. apply lower_cons_inv in Hs. tauto.
Qed.

Lemma lower_rstrip (p : ascii -> bool) (s : string) :
  Py.lower s = s -> Py.lower (Py.rstrip_by p s) = Py.rstrip_by p s.
Proof.
  intros Hs. unfold Py.rstrip_by.
  rewrite lower_rev_str, lower_lstrip; [reflexivity|].
  rewrite lower_rev_str, Hs. reflexivity.
Qed.

Lemma replace_fuel_no_occurrence (n : nat) (old new s : string) :
  Py.find s old = None -> Py.replace_fuel n old new s = s.
Proof.
  revert s. induction n as [|n IH]; intros s Hf; [reflexivity|].
  cbn [Py.replace_fuel].
  destruct s as [|c s'].
  - unfold Py.find in Hf. destruct (Py.startswith EmptyString old); [discriminate|reflexivity].
  - unfold Py.find in Hf; fold Py.find in Hf.
    destruct (Py.startswith (String c s') old); [discriminate|].
    rewrite IH; [reflexivity|].
    destruct (Py.find s' old); [discriminate|reflexivity].
Qed.

Lemma rev_str_involutive (s : string) : Py.rev_str (Py.rev_str s) = s.
Proof.
  unfold Py.rev_str. rewrite list_ascii_of_string_of_list_ascii, rev_involutive.
  apply string_of_list_ascii_of_string.
Qed.

Lemma lstrip_idem (p : ascii -> bool) (s : string) :
  Py.lstrip_by p (Py.lstrip_by p s) = Py.lstrip_by p s.
Proof.
  induction s as [|c s IH]; [reflexivity|].
  cbn [Py.lstrip_by]. destruct (p c) eqn:Hp; [exact IH|].
  cbn [Py.lstrip_by]. rewrite Hp. reflexivity.
Qed.

Lemma rstrip_idem (p : ascii -> bool) (s : string) :
  Py.rstrip_by p (Py.rstrip_by p s) = Py.rstrip_by p s.
Proof.
  unfold Py.rstrip_by. rewrite rev_str_involutive, lstrip_idem. reflexivity.
Qed.

Lemma normalize_lowered (w : string) : Py.lower (Runner.normalize w) = Runner.normalize w.
Proof.
  unfold Runner.normalize, Py.rstrip_chars, Py.replace.
  apply lower_rstrip, lower_replace_fuel; [reflexivity|apply lower_lower].
Qed.

(** C4 (corrected).  [normalize] is idempotent on every website whose
    normal form has no surrounding whitespace and no remaining "www."
    occurrence, and [normalize "WWW.Foo.com/"] equals [normalize "foo.com"]
    (both are "foo.com"). *)
Theorem normalize_idempotent_when_clean (w : string) :
  Py.strip (Runner.normalize w) = Runner.normalize w ->
  Py.find (Runner.normalize w) "www." = None ->
  Runner.normalize (Runner.normalize w) = Runner.normalize w
  /\ Runner.normalize "WWW.Foo.com/" = Runner.normalize "foo.com".
Proof.
  intros Hs Hf. split; [|reflexivity].
  unfold Runner.normalize at 1. rewrite Hs, normalize_lowered.
  unfold Py.replace. rewrite replace_fuel_no_occurrence by exact Hf.
  unfold Runner.normalize, Py.rstrip_chars. apply rstrip_idem.
Qed.

Lemma normalize_idempotent_when_clean_witness :
  Py.strip (Runner.normalize "WWW.Foo.com/") = Runner.normalize "WWW.Foo.com/"
  /\ Py.find (Runner.normalize "WWW.Foo.com/") "www." = None
  /\ Runner.normalize (Runner.normalize "WWW.Foo.com/") = Runner.normalize "WWW.Foo.com/"
  /\ Runner.normalize "WWW.Foo.com/" = Runner.normalize "foo.com".
Proof.
  assert (H1 : Py.strip (Runner.normalize "WWW.Foo.com/") = Runner.normalize "WWW.Foo.com/")
    by reflexivity.
  assert (H2 : Py.find (Runner.normalize "WWW.Foo.com/") "www." = None) by reflexivity.
  split; [exact H1|]. split; [exact H2|].
  exact (normalize_idempotent_when_clean "WWW.Foo.com/" H1 H2).
Defined.

(** C4 counterexample.  [normalize] is not idempotent in general: the
    trailing slash hides a space ("a /" gives "a ", which gives "a"), and
    removing "www." can create a new occurrence ("wwww.ww." gives "www.",
    which gives the empty string). *)
Lemma normalize_not_idempotent :
  Runner.normalize "a /" = "a "%string
  /\ Runner.normalize (Runner.normalize "a /") = "a"%string
  /\ Runner.normalize "wwww.ww." = "www."%string
  /\ Runner.normalize (Runner.normalize "wwww.ww.") = EmptyString.
Proof. vm_compute. repeat split. Qed.
(** ** The run loop: deduplication by normalized website *)

Section RunLoop.
Import PyVal Runner RunnerFacts.
Context (agents : list (string * pyval)) (client_profile : list (pyval * pyval)).

Lemma fold_left_map' {A B C} (f : A -> B -> A) (h : C -> B) l a :
  fold_left f (map h l) a = fold_left (fun a x => f a (h x)) l a.
Proof. revert a; induction l; simpl; auto. Qed.

Lemma fold_left_flat_map {A B C} (f : A -> B -> A) (g : C -> list B) l a :
  fold_left f (flat_map g l) a = fold_left (fun a x => fold_left f (g x) a) l a.
Proof. revert a; induction l; intros; simpl; [reflexivity|]. rewrite fold_left_app. auto. Qed.

Lemma fold_left_ext_pt {A B} (f g : A -> B -> A) l a :
  (forall a x, f a x = g a x) -> fold_left f l a = fold_left g l a.
Proof. intros H. revert a; induction l; intros; simpl; [reflexivity|]. rewrite H. auto. Qed.

Lemma run_segments_flat st segs :
  run_segments agents client_profile st segs
  = fold_left (cand_step agents client_profile) (flatten segs) st.
Proof.
  revert st. induction segs as [|[[sn cfg] urls] segs IH]; intros st; [reflexivity|].
  unfold run_segments, flatten in *. cbn [fold_left flat_map].
  rewrite fold_left_app, <- IH. f_equal.
  rewrite fold_left_flat_map. apply fold_left_ext_pt. intros st' [u cs].
  unfold process_url. cbn [fst snd]. rewrite fold_left_map'. reflexivity.
Qed.

Lemma process_skip cfg sn u st c :
  skipped (processed st) c = true ->
  process_candidate cfg client_profile agents sn u st c = st.
Proof.
  unfold skipped, process_candidate. intros H.
  destruct (String.eqb (cname c) EmptyString); [reflexivity|].
  destruct (String.eqb (cwebsite c) EmptyString); [reflexivity|].
  cbn [orb] in *.
  destruct (bool_decide (normalize (cwebsite c) ∈ processed st)); [reflexivity|].
  cbn [orb] in H. rewrite H. reflexivity.
Qed.

Lemma process_added cfg sn u st c :
  skipped (processed st) c = false ->
  process_candidate cfg client_profile agents sn u st c
  = {| processed := {[ normalize (cwebsite c) ]} ∪ processed st;
       output := output st ++
         [PDict [(PStr "name", PStr (cname c)); (PStr "website", PStr (cwebsite c));
                 (PStr "pain_points", PStr "Critical: Analysis function returned no data");
                 (PStr "contact_email", PStr EmptyString);
                 (PStr "source_url", PStr u); (PStr "category", PStr sn);
                 (PStr "segment_name_internal", PStr sn)]] |}.
Proof.
  unfold skipped, process_candidate. intros H.
  apply orb_false_elim in H as [H H4]. apply orb_false_elim in H as [H H3].
  apply orb_false_elim in H as [H1 H2].
  rewrite H1, H2, H3, H4. reflexivity.
Qed.

Lemma process_mono cfg sn u st c :
  processed st ⊆ processed (process_candidate cfg client_profile agents sn u st c).
Proof.
  destruct (skipped (processed st) c) eqn:Hs.
  - rewrite process_skip by exact Hs. reflexivity.
  - rewrite process_added by exact Hs. cbn [processed]. set_solver.
Qed.

Lemma skipped_mono (P Q : gset string) c :
  P ⊆ Q -> skipped P c = true -> skipped Q c = true.
Proof.
  unfold skipped. intros HPQ H.
  destruct (bool_decide (normalize (cwebsite c) ∈ P)) eqn:E.
  - apply bool_decide_eq_true in E.
    rewrite (bool_decide_eq_true_2 (normalize (cwebsite c) ∈ Q)) by set_solver.
    rewrite !orb_true_r. reflexivity.
  - rewrite orb_false_r in H. 
    apply orb_true_iff in H as [H|H]; [|rewrite H, orb_true_r; reflexivity].
    rewrite H. reflexivity.
Qed.

Lemma process_settles cfg sn u st c :
  skipped (processed (process_candidate cfg client_profile agents sn u st c)) c = true.
Proof.
  destruct (skipped (processed st) c) eqn:Hs.
  - rewrite process_skip by exact Hs. exact Hs.
  - rewrite process_added by exact Hs. cbn [processed]. unfold skipped.
    rewrite (bool_decide_eq_true_2 (normalize (cwebsite c) ∈ _)) by set_solver.
    rewrite orb_true_r. cbn. reflexivity.
Qed.
Lemma process_inv cfg sn u st c :
  Inv st -> Inv (process_candidate cfg client_profile agents sn u st c).
Proof.
  intros [Hnd Hin].
  destruct (skipped (processed st) c) eqn:Hs.
  - rewrite process_skip by exact Hs. split; assumption.
  - rewrite process_added by exact Hs.
    assert (Hn : normalize (cwebsite c) ∉ processed st).
    { intros Hc. unfold skipped in Hs.
      rewrite (bool_decide_eq_true_2 _ Hc), orb_true_r in Hs. cbn in Hs. discriminate. }
    unfold Inv, keys in *. cbn [output processed]. rewrite List.map_app. cbn [List.map].
    replace (normalize (record_website _)) with (normalize (cwebsite c)) by reflexivity.
    split.
    + apply NoDup_app. split; [exact Hnd|]. split; [|apply NoDup_singleton].
      intros k Hk Hk'. apply list_elem_of_singleton in Hk'. subst k.
      apply Hn, Hin, list_elem_of_In, Hk.
    + intros k Hk. apply in_app_or in Hk as [Hk|[Hk|[]]].
      * apply Hin in Hk. set_solver.
      * subst k. set_solver.
Qed.

Lemma fold_inv l st : Inv st -> Inv (fold_left (cand_step agents client_profile) l st).
Proof.
  revert st. induction l as [|[[[sn cfg] u] c] l IH]; intros st H; [exact H|].
  cbn [fold_left]. apply IH. apply process_inv, H.
Qed.

Lemma fold_mono l st :
  processed st ⊆ processed (fold_left (cand_step agents client_profile) l st).
Proof.
  revert st. induction l as [|[[[sn cfg] u] c] l IH]; intros st; [reflexivity|].
  cbn [fold_left]. etransitivity; [apply (process_mono cfg sn u st c)|apply IH].
Qed.

Lemma fold_settles l st :
  forall x, In x l ->
  skipped (processed (fold_left (cand_step agents client_profile) l st)) (snd x) = true.
Proof.
  revert st. induction l as [|[[[sn cfg] u] c] l IH]; intros st x Hx; [destruct Hx|].
  cbn [fold_left]. destruct Hx as [Hx|Hx].
  - subst x. eapply skipped_mono; [apply fold_mono|]. apply process_settles.
  - apply IH, Hx.
Qed.

Lemma fold_all_skipped l st :
  (forall x, In x l -> skipped (processed st) (snd x) = true) ->
  fold_left (cand_step agents client_profile) l st = st.
Proof.
  revert st. induction l as [|[[[sn cfg] u] c] l IH]; intros st H; [reflexivity|].
  cbn [fold_left cand_step]. rewrite process_skip by (apply (H (sn, cfg, u, c)); left; reflexivity).
  apply IH. intros x Hx. apply H. right. exact Hx.
Qed.

Lemma flatten_app s1 s2 : flatten (s1 ++ s2) = (flatten s1 ++ flatten s2)%list.
Proof. unfold flatten. apply flat_map_app. Qed.

Lemma name_admitted_skipped P c :
  name_admitted c = true -> skipped P c = bool_decide (normalize (cwebsite c) ∈ P).
Proof.
  unfold name_admitted, skipped. intros H.
  apply andb_prop in H as [H H3]. apply andb_prop in H as [H1 H2].
  apply negb_true_iff in H1, H2, H3. rewrite H1, H2, H3, orb_false_r. reflexivity.
Qed.

Lemma name_refused_skipped P c :
  name_admitted c = false -> skipped P c = true.
Proof.
  unfold name_admitted, skipped. intros H.
  destruct (String.eqb (cname c) EmptyString); [reflexivity|].
  destruct (String.eqb (cwebsite c) EmptyString); [reflexivity|].
  destruct (existsb (String.eqb (Py.lower (cname c))) GENERIC_COMPANY_NAMES);
    [apply orb_true_r|discriminate].
Qed.

Lemma process_records cfg sn u st c :
  name_admitted c = true ->
  normalize (cwebsite c) ∈ processed (process_candidate cfg client_profile agents sn u st c).
Proof.
  intros H. pose proof (process_settles cfg sn u st c) as Hs.
  rewrite name_admitted_skipped in Hs by exact H.
  apply bool_decide_eq_true in Hs. exact Hs.
Qed.

End RunLoop.


(** C5 (corrected).  The records produced from the initial state never
    share a normalized website; running the same segments twice in a row
    gives the same state as running them once, so the output length is
    stable; a candidate of the run is skipped before enrichment (the state
    is unchanged) when an earlier candidate with the same normalized
    website passed the name checks (non-empty name and website, name not
    generic); and a candidate that fails the name checks is skipped without
    its website being recorded, so it does not cause a later candidate with
    the same website to be skipped. *)
Theorem run_dedup_stable (agents : list (string * PyVal.pyval))
    (client_profile : list (PyVal.pyval * PyVal.pyval))
    (segs : list (string * list (PyVal.pyval * PyVal.pyval) * list (string * list company))) :
  NoDup (RunnerFacts.keys (Runner.run_segments agents client_profile Runner.init_state segs))
  /\ (forall st, Runner.run_segments agents client_profile st (segs ++ segs)
                 = Runner.run_segments agents client_profile st segs)
  /\ (forall st l1 x l2 y l3,
        RunnerFacts.flatten segs = l1 ++ x :: l2 ++ y :: l3 ->
        RunnerFacts.name_admitted (snd x) = true ->
        Runner.normalize (cwebsite (snd y)) = Runner.normalize (cwebsite (snd x)) ->
        let st' := fold_left (RunnerFacts.cand_step agents client_profile) (l1 ++ x :: l2) st in
        RunnerFacts.cand_step agents client_profile st' y = st')
  /\ (forall cfg sn u st c, RunnerFacts.name_admitted c = false ->
        Runner.process_candidate cfg client_profile agents sn u st c = st).
Proof.
  split; [|split; [|split]].
  - rewrite run_segments_flat. apply fold_inv. split; [constructor|].
    intros k [].
  - intros st. rewrite !run_segments_flat, flatten_app, fold_left_app.
    apply fold_all_skipped. intros x Hx. apply fold_settles, Hx.
  - intros st l1 [[[sn cfg] u] c] l2 [[[sn' cfg'] u'] c'] l3 _ Hx Hy st'.
    cbn [snd] in Hx, Hy. unfold st'. clear st'.
    rewrite fold_left_app. cbn [fold_left].
    set (st1 := RunnerFacts.cand_step agents client_profile
                  (fold_left (RunnerFacts.cand_step agents client_profile) l1 st) (sn, cfg, u, c)).
    assert (Hin : Runner.normalize (cwebsite c)
                  ∈ Runner.processed (fold_left (RunnerFacts.cand_step agents client_profile) l2 st1)).
    { apply (fold_mono agents client_profile l2 st1). apply process_records, Hx. }
    cbn [RunnerFacts.cand_step]. apply process_skip. unfold RunnerFacts.skipped.
    rewrite Hy, (bool_decide_eq_true_2 _ Hin), orb_true_r. reflexivity.
  - intros cfg sn u st c Hc. apply process_skip, name_refused_skipped, Hc.
Qed.

(** C5 counterexample.  A first candidate with the generic name "Company"
    is skipped without its website being recorded, so a second candidate
    with the same website is analysed: the run produces one record, the
    second candidate's. *)
Lemma run_dedup_generic_first :
  Runner.output (Runner.run_segments [] [] Runner.init_state RunnerFacts.generic_first_segments)
  = [PyVal.PDict
       [(PyVal.PStr "name", PyVal.PStr "Acme"); (PyVal.PStr "website", PyVal.PStr "https://acme.com");
        (PyVal.PStr "pain_points", PyVal.PStr "Critical: Analysis function returned no data");
        (PyVal.PStr "contact_email", PyVal.PStr EmptyString);
        (PyVal.PStr "source_url", PyVal.PStr "https://list.example/b");
        (PyVal.PStr "category", PyVal.PStr "Fintech");
        (PyVal.PStr "segment_name_internal", PyVal.PStr "Fintech")]].
Proof. vm_compute. reflexivity. Qed.

Lemma run_dedup_stable_witness :
  length (Runner.output (Runner.run_segments [] [] Runner.init_state RunnerFacts.sample_segments)) = 2
  /\ Runner.run_segments [] [] Runner.init_state (RunnerFacts.sample_segments ++ RunnerFacts.sample_segments)
     = Runner.run_segments [] [] Runner.init_state RunnerFacts.sample_segments
  /\ (let st' := fold_left (RunnerFacts.cand_step [] []) ([] ++ [RunnerFacts.sample_first]) Runner.init_state in
      RunnerFacts.cand_step [] [] st' RunnerFacts.sample_second = st')
  /\ Runner.process_candidate [] [] [] "Fintech" "https://list.example/b" Runner.init_state
       {| cname := "Company"; cwebsite := "https://acme.com" |}
     = Runner.init_state.
Proof.
  destruct (run_dedup_stable [] [] RunnerFacts.sample_segments) as [_ [H2 [H3 H4]]].
  split; [vm_compute; reflexivity|]. split; [apply H2|]. split.
  - apply (H3 Runner.init_state [] RunnerFacts.sample_first [] RunnerFacts.sample_second
             [(let '(sn, cfg, u, _) := RunnerFacts.sample_first in
               (sn, cfg, u, {| cname := "Beta"; cwebsite := "https://beta.io" |}))]);
      vm_compute; reflexivity.
  - apply H4. vm_compute. reflexivity.
Defined.

(** ** The TLD filter *)

Lemma denylist_shapes : forallb UrlFacts.tld_shape Urls.disallowed_country_tlds = true.
Proof. vm_compute. reflexivity. Qed.

Lemma tld_shape_not_two_labels (a b : string) :
  UrlFacts.tld_shape ("." ++ a ++ "." ++ b) = false.
Proof.
  destruct a as [|x [|y a]].
  - destruct b as [|p [|q b]]; reflexivity.
  - destruct b as [|p [|q b]]; simpl; destruct (Ascii.eqb x "."); reflexivity.
  - destruct a; reflexivity.
Qed.

Lemma in_list_two_labels (a b : string) :
  Urls.in_list ("." ++ a ++ "." ++ b) Urls.disallowed_country_tlds = false.
Proof.
  pose proof denylist_shapes as H. unfold Urls.in_list.
  apply Bool.not_true_is_false. intros Hin.
  apply existsb_exists in Hin as [e [He Heq]].
  apply String.eqb_eq in Heq. subst e.
  rewrite forallb_forall in H. specialize (H _ He).
  rewrite tld_shape_not_two_labels in H. discriminate.
Qed.

(** C7 (corrected).  The filter drops a URL exactly when [urlparse] gives
    it a non-empty hostname with at least two labels whose final label,
    with a leading dot, is in the denylist; the final-two-labels test never
    matches (every entry is a single label), and every other URL is kept:
    unparsable ones, those without a hostname, and single-label hostnames
    even when that label is denylisted. *)
Theorem tld_filter_excludes_iff (hostname_of : string -> PyVal.res (option string)) (url : string) :
  Urls.keep_url hostname_of url = false <->
  exists h, hostname_of url = PyVal.Ok (Some h) /\ h <> EmptyString
    /\ 2 <= length (Py2.split (Py.lower h) ".")
    /\ Urls.in_list ("." ++ List.last (Py2.split (Py.lower h) ".") EmptyString)
                    Urls.disallowed_country_tlds = true.
Proof.
  unfold Urls.keep_url.
  destruct (hostname_of url) as [[h|]|e].
  - destruct (String.eqb h EmptyString) eqn:Eh.
    + split; [discriminate|]. intros [h' [E [Hne _]]]. injection E as ->.
      apply String.eqb_eq in Eh. contradiction.
    + cbv zeta. rewrite in_list_two_labels, andb_false_r.
      destruct (Nat.leb 2 (length (Py2.split (Py.lower h) "."))) eqn:El.
      * apply Nat.leb_le in El.
        destruct (Urls.in_list _ Urls.disallowed_country_tlds) eqn:Ei.
        -- split; [intros _|reflexivity]. exists h. repeat split; auto.
           intros ->. discriminate.
        -- split; [discriminate|]. intros [h' [E [_ [_ Hi]]]]. injection E as <-.
           rewrite Ei in Hi. discriminate.
      * split; [discriminate|]. intros [h' [E [_ [Hl _]]]]. injection E as <-.
        apply Nat.leb_le in Hl. rewrite Hl in El. discriminate.
  - split; [discriminate|]. intros [h [E _]]. discriminate.
  - split; [discriminate|]. intros [h [E _]]. discriminate.
Qed.

(** C7 counterexample.  [http://de/] has the hostname "de", whose final
    label is denylisted, and the filter keeps it. *)
Lemma tld_filter_keeps_single_label :
  Urls.urlparse_hostname "http://de/" = PyVal.Ok (Some "de"%string)
  /\ Urls.in_list ".de" Urls.disallowed_country_tlds = true
  /\ Urls.keep_url Urls.urlparse_hostname "http://de/" = true.
Proof. vm_compute. repeat split. Qed.

(** ** The retry wrapper *)

Module RetryProofs.
Import PyVal.
Open Scope Z_scope.

Section RetryLoop.
Import PyVal RetryFacts.
Local Open Scope Z_scope.
Context {A : Type} (exceptions : pyexc -> bool) (func : nat -> res A) (backoff : Z).




End RetryLoop.




End RetryProofs.

(** ** The parsers never raise *)

Module ParserProofs.
Import PyVal.

Lemma startswith_in (s p : string) (c : ascii) :
  Py.startswith s p = true -> In c (list_ascii_of_string p) -> In c (list_ascii_of_string s).
Proof.
  revert s. induction p as [|d p IH]; intros s Hs Hin; [destruct Hin|].
  destruct s as [|d' s]; [discriminate|].
  cbn [Py.startswith] in Hs. apply andb_prop in Hs as [Hd Hs].
  apply Ascii.eqb_eq in Hd. subst d'.
  destruct Hin as [->|Hin]; [left; reflexivity|right; apply IH; assumption].
Qed.

Lemma in_map_str (f : ascii -> ascii) (s : string) (c : ascii) :
  In c (list_ascii_of_string (Py.map_str f s)) ->
  exists d, In d (list_ascii_of_string s) /\ f d = c.
Proof.
  induction s as [|d s IH]; intros Hin; [destruct Hin|].
  destruct Hin as [<-|Hin].
  - exists d. split; [left|]; reflexivity.
  - destruct (IH Hin) as [d' [H1 H2]]. exists d'. split; [right|]; assumption.
Qed.

Lemma upper_char_colon (c : ascii) : Py.upper_char c = ":"%char -> c = ":"%char.
Proof. destruct c as [[] [] [] [] [] [] [] []]; vm_compute; intros H; congruence. Qed.

Lemma in_lstrip (p : ascii -> bool) (s : string) (c : ascii) :
  In c (list_ascii_of_string (Py.lstrip_by p s)) -> In c (list_ascii_of_string s).
Proof.
  induction s as [|d s IH]; intros Hin; [exact Hin|].
  cbn [Py.lstrip_by] in Hin. destruct (p d); [right; apply IH, Hin|exact Hin].
Qed.

Lemma in_rev_str (s : string) (c : ascii) :
  In c (list_ascii_of_string (Py.rev_str s)) <-> In c (list_ascii_of_string s).
Proof.
  unfold Py.rev_str. rewrite list_ascii_of_string_of_list_ascii.
  split; [apply in_rev|intros H; apply in_rev; rewrite rev_involutive; exact H].
Qed.

Lemma in_strip (s : string) (c : ascii) :
  In c (list_ascii_of_string (Py.strip s)) -> In c (list_ascii_of_string s).
Proof.
  unfold Py.strip, Py.strip_by, Py.rstrip_by. intros Hin.
  apply in_rev_str, in_lstrip, in_rev_str, in_lstrip in Hin. exact Hin.
Qed.

Lemma startswith_nil (s : string) : Py.startswith s EmptyString = true.
Proof. destruct s; reflexivity. Qed.

Lemma find_char_some (s : string) (c : ascii) :
  In c (list_ascii_of_string s) -> exists i, Py.find s (String c EmptyString) = Some i.
Proof.
  induction s as [|d s IH]; intros Hin; [destruct Hin|].
  unfold Py.find; fold Py.find. cbn [Py.startswith].
  rewrite startswith_nil, andb_true_r.
  destruct (Ascii.eqb c d) eqn:E; [exists 0; reflexivity|].
  destruct Hin as [->|Hin]; [rewrite Ascii.eqb_refl in E; discriminate|].
  destruct (IH Hin) as [i Hi]. rewrite Hi. exists (S i). reflexivity.
Qed.

Lemma final_answer_colon (s : string) :
  Py2.has_final_answer s = true -> exists i, Py.find s ":" = Some i.
Proof.
  unfold Py2.has_final_answer. intros H.
  apply find_char_some.
  assert (Hc : In ":"%char (list_ascii_of_string (Py.upper (Py.strip s)))).
  { apply (startswith_in _ "FINAL ANSWER:"); [exact H|]. vm_compute. tauto. }
  apply in_map_str in Hc as [d [Hd Hu]]. apply upper_char_colon in Hu. subst d.
  apply in_strip, Hd.
Qed.

Lemma split1_found (s sep : string) i :
  Py.find s sep = Some i -> exists r, index (Py.split1 s sep) 1 = Ok r.
Proof. intros H. unfold Py.split1. rewrite H. eexists. reflexivity. Qed.

Lemma clean_final_answer_ok (s : string) : exists r, Parser.clean_final_answer s = Ok r.
Proof.
  unfold Parser.clean_final_answer.
  destruct (Py2.has_final_answer s) eqn:H; [|eexists; reflexivity].
  destruct (final_answer_colon s H) as [i Hi].
  destruct (split1_found s ":" i Hi) as [r Hr].
  unfold Py2.after_first. rewrite Hr. eexists. reflexivity.
Qed.

(** C9 (corrected).  No parser raises: on a value that is not a string
    [parse_url_list] and [parse_company_data] return [] and
    [parse_analysis_results] returns the sentinel dictionary, and on every
    string each of the three returns normally, whatever [ast.literal_eval]
    does.  On a string the value returned is not always the empty or
    sentinel value (see the counterexample). *)
Theorem parsers_never_raise (literal_eval : string -> res pyval) :
  (forall v, (forall s, v <> PStr s) ->
     Parser.parse_url_list literal_eval v = Ok []
     /\ Parser.parse_company_data literal_eval v = Ok []
     /\ Parser.parse_analysis_results v
        = Ok {| email := EmptyString; pain_points := "Analysis failed - non-string result" |})
  /\ (forall s,
       (exists urls, Parser.parse_url_list literal_eval (PStr s) = Ok urls)
       /\ (exists cs, Parser.parse_company_data literal_eval (PStr s) = Ok cs)
       /\ (exists a, Parser.parse_analysis_results (PStr s) = Ok a)).
Proof.
  split.
  - intros v Hv. destruct v; try (split; [|split]; reflexivity).
    exfalso. eapply Hv. reflexivity.
  - intros s. destruct (clean_final_answer_ok s) as [cleaned Hc].
    split; [|split].
    + unfold Parser.parse_url_list. rewrite Hc. cbn [bind].
      destruct (Parser.url_method _); [eexists; reflexivity|].
      destruct (Parser.url_method _); eexists; reflexivity.
    + unfold Parser.parse_company_data. rewrite Hc. cbn [bind].
      destruct (Parser.company_method _); [|eexists; reflexivity].
      destruct (Parser.company_method _); eexists; reflexivity.
    + unfold Parser.parse_analysis_results.
      destruct (Parser.json_analysis s); [eexists; reflexivity|].
      rewrite Hc. cbn [bind].
      match goal with
      | |- context [if ?b then _ else Ok ?p] => destruct b eqn:Hb
      end; [|eexists; reflexivity].
      apply andb_prop in Hb as [_ Hb]. unfold Py.contains in Hb.
      destruct (Py.find cleaned _) as [i|] eqn:Hf; [|discriminate].
      destruct (split1_found _ _ i Hf) as [r Hr]. rewrite Hr. eexists. reflexivity.
Qed.

(** C9 counterexample.  On the string "hello", which has none of the
    expected shapes, [parse_analysis_results] returns the whole text as the
    pain points instead of an empty or sentinel value. *)
Lemma analysis_parser_no_sentinel :
  Parser.parse_analysis_results (PStr "hello")
  = Ok {| email := EmptyString; pain_points := "hello" |}.
Proof. vm_compute. reflexivity. Qed.

Lemma parsers_never_raise_witness :
  Parser.parse_url_list (fun _ => Ok PNone) PNone = Ok []
  /\ Parser.parse_company_data (fun _ => Ok PNone) (PNum "1") = Ok []
  /\ Parser.parse_analysis_results (PList [])
     = Ok {| email := EmptyString; pain_points := "Analysis failed - non-string result" |}.
Proof.
  destruct (parsers_never_raise (fun _ => Ok PNone)) as [H _].
  split; [|split].
  - apply (H PNone). intros s. discriminate.
  - apply (H (PNum "1")). intros s. discriminate.
  - apply (H (PList [])). intros s. discriminate.
Defined.

End ParserProofs.

(** ** The API cache *)

Module CacheProofs.
Import PyVal Cache CacheFacts.
Open Scope Z_scope.

(** C10.  [get] returns [None] both for a missing key and for a cached
    [None]; when the wrapped function is called and returns [None], that
    value is stored, and the next call with the same key calls the function
    again; a stored value other than [None] that is within its TTL is
    returned without calling the function and without changing the cache. *)
Theorem cache_none_never_served :
  (forall now key c, cache c !! key = None -> fst (get now key c) = PNone)
  /\ (forall now key c ts, cache c !! key = Some {| value := PNone; timestamp := ts |} ->
        fst (get now key c) = PNone)
  /\ (forall key t1 t2 t3 t4 c r,
        let '(_, c1, called1) := cached_call key PNone t1 t2 c in
        called1 = true ->
        cache c1 !! key = Some {| value := PNone; timestamp := t2 |}
        /\ snd (cached_call key r t3 t4 c1) = true)
  /\ (forall key v ts now t_set c r,
        v <> PNone ->
        cache c !! key = Some {| value := v; timestamp := ts |} ->
        now - ts <= ttl_seconds c ->
        cached_call key r now t_set c = (v, c, false)).
Proof.
  split; [|split; [|split]].
  - intros now key c H. unfold get. rewrite H. reflexivity.
  - intros now key c ts H. unfold get. rewrite H. cbn [value timestamp].
    destruct (ttl_seconds c <? now - ts); reflexivity.
  - intros key t1 t2 t3 t4 c r.
    unfold cached_call at 1.
    destruct (get t1 key c) as [cr c1] eqn:Hg.
    destruct (negb (is_none cr)) eqn:Hn; [discriminate|].
    intros _. split.
    + unfold set. cbn [cache]. apply lookup_insert_eq.
    + unfold cached_call, get. unfold set at 1. cbn [cache ttl_seconds].
      rewrite lookup_insert_eq. cbn [value timestamp].
      destruct (_ <? _); reflexivity.
  - intros key v ts now t_set c r Hv Hl Ht.
    unfold cached_call, get. rewrite Hl. cbn [value timestamp].
    replace (ttl_seconds c <? now - ts) with false by lia.
    destruct v; [contradiction|..]; reflexivity.
Qed.

Lemma cache_none_never_served_witness :
  fst (get 10 "k" c_empty) = PNone
  /\ fst (get 10 "k" c_none) = PNone
  /\ cache (snd (fst (cached_call "k" PNone 1 2 c_empty))) !! "k"%string
     = Some {| value := PNone; timestamp := 2 |}
  /\ snd (cached_call "k" (PStr "x") 3 4 (snd (fst (cached_call "k" PNone 1 2 c_empty)))) = true
  /\ cached_call "k" (PStr "w") 10 20 c_val = (PStr "v", c_val, false).
Proof.
  destruct cache_none_never_served as [H1 [H2 [H3 H4]]].
  split; [|split; [|split; [|split]]].
  - apply H1. reflexivity.
  - apply (H2 10 "k" c_none 0). reflexivity.
  - pose proof (H3 "k" 1 2 3 4 c_empty (PStr "x")) as H.
    change (cached_call "k" PNone 1 2 c_empty) with (PNone, set 2 "k" PNone c_empty, true) in H |- *.
    exact (proj1 (H eq_refl)).
  - pose proof (H3 "k" 1 2 3 4 c_empty (PStr "x")) as H.
    change (cached_call "k" PNone 1 2 c_empty) with (PNone, set 2 "k" PNone c_empty, true) in H |- *.
    exact (proj2 (H eq_refl)).
  - apply (H4 "k" (PStr "v") 0 10 20 c_val (PStr "w")).
    + discriminate.
    + reflexivity.
    + vm_compute. discriminate.
Defined.

End CacheProofs.

(** ** Further properties: [str.strip] *)

Module StripFacts.

Lemma string_of_list_ascii_app (l1 l2 : list ascii) :
  string_of_list_ascii (l1 ++ l2) = (string_of_list_ascii l1 ++ string_of_list_ascii l2)%string.
Proof. induction l1 as [|c l1 IH]; [reflexivity|]. exact (f_equal (String c) IH). Qed.

Lemma list_ascii_of_string_app (s t : string) :
  list_ascii_of_string (s ++ t) = (list_ascii_of_string s ++ list_ascii_of_string t)%list.
Proof. induction s as [|c s IH]; [reflexivity|]. exact (f_equal (cons c) IH). Qed.

Lemma rev_str_cons (c : ascii) (t : string) :
  Py.rev_str (String c t) = (Py.rev_str t ++ String c EmptyString)%string.
Proof. unfold Py.rev_str. cbn [list_ascii_of_string rev]. apply string_of_list_ascii_app. Qed.

Lemma rev_str_snoc (w : string) (c : ascii) :
  Py.rev_str (w ++ String c EmptyString) = String c (Py.rev_str w).
Proof.
  unfold Py.rev_str. rewrite list_ascii_of_string_app, rev_app_distr. reflexivity.
Qed.

Lemma lstrip_head (p : ascii -> bool) (s : string) :
  Py.lstrip_by p s = EmptyString
  \/ exists c t, Py.lstrip_by p s = String c t /\ p c = false.
Proof.
  induction s as [|c s IH]; [left; reflexivity|].
  cbn [Py.lstrip_by]. destruct (p c) eqn:Hp; [exact IH|].
  right. exists c, s. split; [reflexivity|exact Hp].
Qed.

Lemma lstrip_snoc (p : ascii -> bool) (s : string) (c : ascii) :
  p c = false -> exists w, Py.lstrip_by p (s ++ String c EmptyString) = (w ++ String c EmptyString)%string.
Proof.
  intros Hc. induction s as [|d s IH].
  - exists EmptyString. simpl. rewrite Hc. reflexivity.
  - simpl. destruct (p d); [exact IH|].
    exists (String d s). reflexivity.
Qed.

Lemma strip_by_idem (p : ascii -> bool) (s : string) :
  Py.strip_by p (Py.strip_by p s) = Py.strip_by p s.
Proof.
  unfold Py.strip_by.
  assert (H : Py.lstrip_by p (Py.rstrip_by p (Py.lstrip_by p s)) = Py.rstrip_by p (Py.lstrip_by p s)).
  { destruct (lstrip_head p s) as [-> | [c [t [-> Hc]]]]; [reflexivity|].
    unfold Py.rstrip_by at 1 2. rewrite rev_str_cons.
    destruct (lstrip_snoc p (Py.rev_str t) c Hc) as [w ->].
    rewrite rev_str_snoc. cbn [Py.lstrip_by]. rewrite Hc. reflexivity. }
  rewrite H. apply rstrip_idem.
Qed.

Lemma strip_idem (s : string) : Py.strip (Py.strip s) = Py.strip s.
Proof. apply strip_by_idem. Qed.

Lemma length_lstrip (p : ascii -> bool) (s : string) :
  String.length (Py.lstrip_by p s) <= String.length s.
Proof.
  induction s as [|c s IH]; [reflexivity|].
  cbn [Py.lstrip_by]. destruct (p c); cbn [String.length]; lia.
Qed.

Lemma length_string_of_list_ascii (l : list ascii) :
  String.length (string_of_list_ascii l) = length l.
Proof. induction l as [|c l IH]; [reflexivity|]. exact (f_equal S IH). Qed.

Lemma length_list_ascii (s : string) : length (list_ascii_of_string s) = String.length s.
Proof. induction s as [|c s IH]; [reflexivity|]. exact (f_equal S IH). Qed.

Lemma length_rev_str (s : string) : String.length (Py.rev_str s) = String.length s.
Proof.
  unfold Py.rev_str. rewrite length_string_of_list_ascii, length_rev. apply length_list_ascii.
Qed.

Lemma length_strip (s : string) : String.length (Py.strip s) <= String.length s.
Proof.
  unfold Py.strip, Py.strip_by, Py.rstrip_by.
  rewrite length_rev_str.
  pose proof (length_lstrip Py.is_space (Py.rev_str (Py.lstrip_by Py.is_space s))).
  rewrite length_rev_str in H. pose proof (length_lstrip Py.is_space s). lia.
Qed.

End StripFacts.

(** ** Further properties: the parsers of utils/parser.py *)

Module ParserMore.
Import PyVal.

Import ParserFacts.

Lemma company_item_wf (it : pyval) : Forall well_formed (Parser.company_item it).
Proof.
  unfold Parser.company_item.
  destruct it as [| | | |l|kvs|]; try constructor.
  destruct (dict_get kvs "name") as [| | |name| | |]; try constructor.
  destruct (dict_get kvs "website") as [| | |website| | |]; try constructor.
  destruct (negb (String.eqb (Py.strip name) EmptyString)) eqn:H1; [|constructor].
  destruct (Py.startswith (Py.strip website) "http") eqn:H2; [|constructor].
  destruct (1 <? String.length name) eqn:H3; [|constructor].
  destruct (String.length name <? 60) eqn:H4; [|constructor].
  cbn [andb]. constructor; [|constructor].
  apply negb_true_iff, String.eqb_neq in H1. apply Nat.ltb_lt in H4.
  pose proof (StripFacts.length_strip name).
  repeat split; cbn [cname cwebsite]; try apply StripFacts.strip_idem; auto; lia.
Qed.

Lemma company_method_wf (d : option pyval) : Forall well_formed (Parser.company_method d).
Proof.
  unfold Parser.company_method. destruct d as [[| | | |xs| |]|]; try constructor.
  apply Forall_flat_map, Forall_forall. intros it _. apply company_item_wf.
Qed.

Lemma regex_accept_wf (companies : list company) (m : string * string) :
  Forall well_formed companies -> Forall well_formed (Parser.regex_accept companies m).
Proof.
  intros H. unfold Parser.regex_accept.
  destruct (negb (String.eqb (Py.strip (fst m)) EmptyString)) eqn:H1; [|exact H].
  destruct (Py.startswith (Py.strip (snd m)) "http") eqn:H2; [|exact H].
  destruct (1 <? String.length (Py.strip (fst m))) eqn:H3; [|exact H].
  destruct (String.length (Py.strip (fst m)) <? 60) eqn:H4; [|exact H].
  cbn [andb]. destruct (existsb _ companies); [exact H|].
  apply Forall_app. split; [exact H|]. constructor; [|constructor].
  apply negb_true_iff, String.eqb_neq in H1. apply Nat.ltb_lt in H4.
  repeat split; cbn [cname cwebsite]; try apply StripFacts.strip_idem; auto.
Qed.

Lemma company_regex_method_wf (cleaned : string) :
  Forall well_formed (Parser.company_regex_method cleaned).
Proof.
  unfold Parser.company_regex_method.
  assert (Hg : forall (ps : list Re.regex) (acc : list company), Forall well_formed acc ->
            Forall well_formed
              (fold_left (fun companies p =>
                            fold_left Parser.regex_accept (Re.findall2 Re.f_IM p cleaned) companies)
                         ps acc)).
  { induction ps as [|p ps IH]; intros acc Hacc; [exact Hacc|].
    cbn [fold_left]. apply IH.
    generalize (Re.findall2 Re.f_IM p cleaned). intros ms. revert acc Hacc.
    induction ms as [|m ms IHm]; intros acc Hacc; [exact Hacc|].
    cbn [fold_left]. apply IHm, regex_accept_wf, Hacc. }
  apply Hg. constructor.
Qed.

Lemma NoDup_snoc {A} (l : list A) (x : A) : NoDup l -> ~ In x l -> NoDup (l ++ [x]).
Proof.
  intros Hl Hx. apply NoDup_app. split; [exact Hl|]. split; [|apply NoDup_singleton].
  intros y Hy Hy'. apply list_elem_of_singleton in Hy' as ->. apply Hx, list_elem_of_In, Hy.
Qed.

Lemma regex_accept_unique (companies : list company) (m : string * string) :
  NoDup (map (fun c => Py.lower (cname c)) companies) ->
  NoDup (map (fun c => Py.lower (cname c)) (Parser.regex_accept companies m)).
Proof.
  intros H. unfold Parser.regex_accept.
  destruct (_ && _ && _ && _); [|exact H].
  destruct (existsb _ companies) eqn:He; [exact H|].
  rewrite map_app. cbn [map cname]. apply NoDup_snoc; [exact H|].
  intros Hin. apply in_map_iff in Hin as [c [Hc Hin]].
  assert (Hx : existsb (fun c => String.eqb (Py.lower (cname c)) (Py.lower (Py.strip (fst m))))
                       companies = true).
  { apply existsb_exists. exists c. split; [exact Hin|]. rewrite Hc. apply String.eqb_refl. }
  rewrite Hx in He. discriminate.
Qed.

Lemma dedup_acc_spec (l acc : list string) :
  NoDup acc ->
  NoDup (Parser.dedup_acc acc l) /\ (forall x, In x (Parser.dedup_acc acc l) -> In x acc \/ In x l).
Proof.
  revert acc. induction l as [|u l IH]; intros acc Hacc; cbn [Parser.dedup_acc].
  - split; [apply NoDup_ListNoDup, NoDup_rev, NoDup_ListNoDup, Hacc|]. intros x Hx. left. apply in_rev, Hx.
  - destruct (existsb (String.eqb u) acc) eqn:He.
    + destruct (IH acc Hacc) as [H1 H2]. split; [exact H1|].
      intros x Hx. destruct (H2 x Hx) as [H|H]; [left; exact H|right; right; exact H].
    + assert (Hu : ~ In u acc).
      { intros Hin. assert (existsb (String.eqb u) acc = true) as Hc.
        { apply existsb_exists. exists u. split; [exact Hin|apply String.eqb_refl]. }
        rewrite Hc in He. discriminate. }
      assert (Hu' : u ∉ acc) by (rewrite list_elem_of_In; exact Hu).
      destruct (IH (u :: acc) (NoDup_cons_2 _ _ Hu' Hacc)) as [H1 H2]. split; [exact H1|].
      intros x Hx. destruct (H2 x Hx) as [[<-|H]|H].
      * right. left. reflexivity.
      * left. exact H.
      * right. right. exact H.
Qed.

(** X14.  The Parsing Cascade only returns companies with a non-empty,
    stripped name shorter than 60 characters and a stripped website
    starting with "http", whatever [ast.literal_eval] does and whichever
    stage answers. *)
Theorem parse_company_data_shape (literal_eval : string -> res pyval) (agent_output : pyval)
    (cs : list company) :
  Parser.parse_company_data literal_eval agent_output = Ok cs -> Forall well_formed cs.
Proof.
  unfold Parser.parse_company_data. destruct agent_output as [| | |s| | |];
    try (intros H; injection H as <-; constructor).
  destruct (Parser.clean_final_answer s) as [cleaned0|e]; cbn [PyVal.bind]; [|discriminate].
  pose proof (company_method_wf (Json.loads (Parser.strip_fences cleaned0))) as H1.
  destruct (Parser.company_method (Json.loads _)) as [|c l];
    [|intros H; injection H as <-; exact H1].
  pose proof (company_method_wf (match literal_eval (Parser.strip_fences cleaned0) with
                                 | Ok v => Some v | Raise _ => None end)) as H2.
  destruct (Parser.company_method _) as [|c l];
    [|intros H; injection H as <-; exact H2].
  intros H; injection H as <-. apply company_regex_method_wf.
Qed.

Lemma parse_company_data_shape_witness :
  Parser.parse_company_data (fun _ => Ok PNone) (PStr crew_json)
    = Ok [{| cname := "Acme Corp"; cwebsite := "https://acme.com" |}]
  /\ Forall well_formed [{| cname := "Acme Corp"; cwebsite := "https://acme.com" |}].
Proof.
  assert (H : Parser.parse_company_data (fun _ => Ok PNone) (PStr crew_json)
              = Ok [{| cname := "Acme Corp"; cwebsite := "https://acme.com" |}])
    by (vm_compute; reflexivity).
  split; [exact H|]. exact (parse_company_data_shape _ _ _ H).
Defined.

(** X15.  The regex stage of the Parsing Cascade never returns two companies
    whose names are equal ignoring case. *)
Theorem company_regex_method_unique (cleaned : string) :
  NoDup (map (fun c => Py.lower (cname c)) (Parser.company_regex_method cleaned)).
Proof.
  unfold Parser.company_regex_method.
  assert (Hg : forall (ps : list Re.regex) (acc : list company),
            NoDup (map (fun c => Py.lower (cname c)) acc) ->
            NoDup (map (fun c => Py.lower (cname c))
              (fold_left (fun companies p =>
                            fold_left Parser.regex_accept (Re.findall2 Re.f_IM p cleaned) companies)
                         ps acc))).
  { induction ps as [|p ps IH]; intros acc Hacc; [exact Hacc|].
    cbn [fold_left]. apply IH.
    generalize (Re.findall2 Re.f_IM p cleaned). intros ms. revert acc Hacc.
    induction ms as [|m ms IHm]; intros acc Hacc; [exact Hacc|].
    cbn [fold_left]. apply IHm, regex_accept_unique, Hacc. }
  apply Hg. constructor.
Qed.

(** X16.  The regex stage of [parse_url_list] returns no URL twice and no URL
    ending in an image, style sheet or script suffix. *)
Theorem url_regex_method_clean (cleaned : string) :
  NoDup (Parser.url_regex_method cleaned)
  /\ Forall (fun u => existsb (Py.endswith u) Parser.image_suffixes = false)
            (Parser.url_regex_method cleaned).
Proof.
  unfold Parser.url_regex_method.
  destruct (dedup_acc_spec
              (filter (fun u => negb (existsb (Py.endswith u) Parser.image_suffixes))
                 (map (Py.strip_chars (String Json.dq ".,)('"))
                    (Re.findall0 Re.no_flags Parser.url_pattern cleaned))) [])
    as [Hnd Hin]; [constructor|].
  split; [exact Hnd|]. apply List.Forall_forall. intros u Hu.
  destruct (Hin u Hu) as [[]|Hf].
  apply list_elem_of_In, list_elem_of_filter in Hf as [Hp _].
  apply Is_true_true in Hp. apply negb_true_iff in Hp. exact Hp.
Qed.

End ParserMore.

(** ** Further properties: [retry] *)

Module RetryMore.
Import PyVal Retry.
Local Open Scope nat_scope.

Section Bounds.
Context {A : Type}.
Variable exceptions : pyexc -> bool.
Variable func : nat -> res A.
Variable backoff : Z.



(** X8.  With [max_attempts <= 1] the loop body never runs: the function is
    called once, without any sleep, and its exception (even a retriable
    one) propagates. *)
Theorem wrapper_single_attempt (max_attempts delay : Z) :
  (max_attempts <= 1)%Z ->
  wrapper exceptions func backoff max_attempts delay = (func 0, [], 1).
Proof.
  intros Hm. unfold wrapper. rewrite Z2Nat.nonpos by lia. reflexivity.
Qed.

End Bounds.

Lemma wrapper_single_attempt_witness :
  (0 <= 1)%Z
  /\ wrapper Retry.request_exception RetryFacts.func_timeout 2 0 2
     = (RetryFacts.func_timeout 0, [], 1).
Proof.
  assert (H : (0 <= 1)%Z) by lia.
  split; [exact H|]. exact (wrapper_single_attempt _ _ _ 0 2 H).
Defined.

End RetryMore.

(** ** Further properties: [APICache] *)

Module CacheMore.
Import PyVal Cache.
Open Scope Z_scope.

(** X9.  A value just stored is returned unchanged while it is at most
    [ttl_seconds] old; once it is older, [get] returns [None] and deletes
    the key (the value the key held before the [set] is gone too), and
    leaves every other key as it was. *)
Theorem get_after_set (now t : Z) (key : string) (v : pyval) (c : APICache) :
  (now - t <= ttl_seconds c -> get now key (set t key v c) = (v, set t key v c))
  /\ (ttl_seconds c < now - t ->
      fst (get now key (set t key v c)) = PNone
      /\ cache (snd (get now key (set t key v c))) !! key = None
      /\ (forall k, k <> key -> cache (snd (get now key (set t key v c))) !! k = cache c !! k)
      /\ ttl_seconds (snd (get now key (set t key v c))) = ttl_seconds c).
Proof.
  unfold get, set. cbn [cache ttl_seconds]. rewrite lookup_insert_eq. cbn [timestamp value].
  split.
  - intros H. destruct (Z.ltb_spec (ttl_seconds c) (now - t)); [lia|reflexivity].
  - intros H. destruct (Z.ltb_spec (ttl_seconds c) (now - t)); [|lia].
    cbn [fst snd cache ttl_seconds]. split; [reflexivity|]. split; [apply lookup_delete_eq|].
    split; [|reflexivity].
    intros k Hk. rewrite lookup_delete_ne by congruence. rewrite lookup_insert_ne by congruence.
    reflexivity.
Qed.

Lemma get_after_set_witness :
  (10 - 0 <= ttl_seconds CacheFacts.c_empty
   /\ get 10 "k" (set 0 "k" (PStr "v") CacheFacts.c_empty)
      = (PStr "v", set 0 "k" (PStr "v") CacheFacts.c_empty))
  /\ (ttl_seconds CacheFacts.c_empty < 4000 - 0
      /\ fst (get 4000 "k" (set 0 "k" (PStr "v") CacheFacts.c_empty)) = PNone).
Proof.
  assert (H1 : 10 - 0 <= ttl_seconds CacheFacts.c_empty) by (vm_compute; discriminate).
  assert (H2 : ttl_seconds CacheFacts.c_empty < 4000 - 0) by reflexivity.
  split; (split; [assumption|]).
  - exact (proj1 (get_after_set 10 0 "k" (PStr "v") CacheFacts.c_empty) H1).
  - exact (proj1 (proj2 (get_after_set 4000 0 "k" (PStr "v") CacheFacts.c_empty) H2)).
Defined.

End CacheMore.

(** ** Further properties: the cache key *)

Module CacheKeyMore.
Import PyVal Cache CacheKey.
Open Scope Z_scope.

Lemma str_app_assoc (x y z : string) : ((x ++ y) ++ z = x ++ (y ++ z))%string.
Proof. induction x as [|c x IH]; [reflexivity|]. exact (f_equal (String c) IH). Qed.

Lemma join_cons (sep x : string) (l : list string) :
  l <> [] -> Parser.join sep (x :: l) = (x ++ sep ++ Parser.join sep l)%string.
Proof. destruct l as [|y l]; [congruence|reflexivity]. Qed.

(** Joining [a ++ sep ++ b] gives the same text as joining [a] and [b]. *)
Lemma join_split (sep a b : string) (l1 l2 : list string) :
  Parser.join sep (l1 ++ (a ++ sep ++ b)%string :: l2) = Parser.join sep (l1 ++ a :: b :: l2).
Proof.
  induction l1 as [|x l1 IH].
  - cbn [app]. destruct l2 as [|y l2]; [reflexivity|].
    rewrite (join_cons sep _ (y :: l2)) by discriminate.
    rewrite (join_cons sep a (b :: y :: l2)) by discriminate.
    rewrite (join_cons sep b (y :: l2)) by discriminate.
    rewrite !str_app_assoc. reflexivity.
  - cbn [app]. rewrite !(join_cons sep x) by (destruct l1; discriminate).
    rewrite IH. reflexivity.
Qed.

Section Collision.
Variable md5_hexdigest : string -> string.
Variable py_str : pyval -> string.
(** [str(s)] of a [str] is [s] itself. *)
Hypothesis py_str_str : forall s, py_str (PStr s) = s.

(** The text hashed for [a ++ "|" ++ b] as one argument is the text
    hashed for [a] and [b] as two arguments. *)
Lemma generate_key_arg_split (func_name a b : string) (pre post : list pyval)
    (kwargs : list (string * pyval)) :
  generate_key md5_hexdigest py_str func_name (pre ++ PStr (a ++ "|" ++ b) :: post) kwargs
  = generate_key md5_hexdigest py_str func_name (pre ++ PStr a :: PStr b :: post) kwargs.
Proof.
  unfold generate_key. f_equal. rewrite !map_app. cbn [map].
  rewrite !py_str_str, <- !app_assoc. cbn [app].
  exact (join_split "|" a b (func_name :: map py_str pre) _).
Qed.

(** X10.  An argument containing ["|"] gives the same key as the two
    arguments on either side of it, and an argument ["k=v"] at the end of
    the positional arguments the same key as the keyword argument [k=v]:
    the parts are joined with no escaping. *)
Theorem generate_key_collisions (func_name a b k s : string) (pre post : list pyval)
    (kwargs : list (string * pyval)) :
  generate_key md5_hexdigest py_str func_name (pre ++ PStr (a ++ "|" ++ b) :: post) kwargs
  = generate_key md5_hexdigest py_str func_name (pre ++ PStr a :: PStr b :: post) kwargs
  /\ generate_key md5_hexdigest py_str func_name (pre ++ [PStr (k ++ "=" ++ s)]) []
     = generate_key md5_hexdigest py_str func_name pre [(k, PStr s)].
Proof.
  split; [apply generate_key_arg_split|].
  unfold generate_key. f_equal. rewrite !map_app. cbn [map sort_kwargs fold_right insert_kw].
  rewrite !py_str_str, app_nil_r. reflexivity.
Qed.

(** X11.  Through such a collision a cached call serves the result of another
    call: once [f(a, b)] has stored a result that is not [None],
    [f(a + "|" + b)] within the TTL returns it without calling [f]. *)
Theorem cached_call_collision (func_name a b : string) (r r' : pyval) (t t' : Z)
    (c : APICache) :
  cache c !! generate_key md5_hexdigest py_str func_name [PStr a; PStr b] [] = None ->
  r <> PNone -> t' - t <= ttl_seconds c ->
  let '(v1, c1, called1) :=
    cached_call (generate_key md5_hexdigest py_str func_name [PStr a; PStr b] []) r t t c in
  let '(v2, c2, called2) :=
    cached_call (generate_key md5_hexdigest py_str func_name [PStr (a ++ "|" ++ b)] []) r' t' t' c1 in
  called1 = true /\ v1 = r /\ v2 = r /\ called2 = false.
Proof.
  intros Hc Hr Ht.
  pose proof (generate_key_arg_split func_name a b [] [] []) as Hk.
  cbn [app] in Hk. rewrite Hk.
  unfold cached_call, get, set. rewrite Hc. cbn [is_none negb cache ttl_seconds].
  rewrite lookup_insert_eq.
  cbn [timestamp value]. destruct (Z.ltb_spec (ttl_seconds c) (t' - t)) as [H|H]; [lia|].
  assert (Hn : is_none r = false) by (destruct r; congruence || reflexivity).
  rewrite Hn. cbn [negb]. repeat split.
Qed.

End Collision.

Definition py_str_sample (v : pyval) : string :=
  match v with PStr s => s | _ => EmptyString end.

Lemma generate_key_collisions_witness :
  generate_key (fun s => s) py_str_sample "f" [PStr "a|b"] []
  = generate_key (fun s => s) py_str_sample "f" [PStr "a"; PStr "b"] [].
Proof.
  exact (proj1 (generate_key_collisions (fun s => s) py_str_sample (fun s => eq_refl)
                  "f" "a" "b" EmptyString EmptyString [] [] [])).
Defined.

Lemma cached_call_collision_witness :
  cache CacheFacts.c_empty !! generate_key (fun s => s) py_str_sample "f" [PStr "a"; PStr "b"] []
    = None
  /\ PStr "v" <> PNone /\ 10 - 0 <= ttl_seconds CacheFacts.c_empty
  /\ (let '(v1, c1, called1) :=
        cached_call (generate_key (fun s => s) py_str_sample "f" [PStr "a"; PStr "b"] [])
          (PStr "v") 0 0 CacheFacts.c_empty in
      let '(v2, c2, called2) :=
        cached_call (generate_key (fun s => s) py_str_sample "f" [PStr "a|b"] [])
          (PStr "w") 10 10 c1 in
      called1 = true /\ v1 = PStr "v" /\ v2 = PStr "v" /\ called2 = false).
Proof.
  assert (H1 : cache CacheFacts.c_empty
                 !! generate_key (fun s => s) py_str_sample "f" [PStr "a"; PStr "b"] [] = None)
    by reflexivity.
  assert (H2 : PStr "v" <> PNone) by discriminate.
  assert (H3 : 10 - 0 <= ttl_seconds CacheFacts.c_empty) by (vm_compute; discriminate).
  split; [exact H1|]. split; [exact H2|]. split; [exact H3|].
  exact (cached_call_collision (fun s => s) py_str_sample (fun s => eq_refl) "f" "a" "b"
           (PStr "v") (PStr "w") 0 10 CacheFacts.c_empty H1 H2 H3).
Defined.

End CacheKeyMore.

(** ** Further properties: segment selection *)

Module SegmentsMore.
Import PyVal Segments SegmentFacts.

Lemma select_fold (eq_other : pyval -> pyval -> bool) (all : list (list (pyval * pyval)))
    (names : list pyval) : forall acc,
  fold_left (fun segments_to_actually_process name_to_find =>
               match List.find (fun config => py_eq eq_other (segment_name config) name_to_find)
                               all with
               | Some config => segments_to_actually_process ++ [config]
               | None => segments_to_actually_process
               end) names acc
  = acc ++ chosen_configs eq_other all names.
Proof.
  induction names as [|n names IH]; intros acc; cbn [fold_left].
  - rewrite app_nil_r. reflexivity.
  - rewrite IH. unfold chosen_configs. cbn [flat_map].
    destruct (List.find _ all); [|reflexivity]. rewrite <- app_assoc. reflexivity.
Qed.

Lemma chosen_configs_incl eq_other all names cfg :
  In cfg (chosen_configs eq_other all names) -> In cfg all.
Proof.
  unfold chosen_configs. intros H. apply in_flat_map in H as [n [_ Hn]].
  destruct (List.find _ all) eqn:Hf; [|destruct Hn].
  destruct Hn as [<-|[]]. apply find_some in Hf as [Hf _]. exact Hf.
Qed.

(** X4.  The run goes on only with segments taken from the configuration:
    for a non-empty list of names, the first configuration with each
    requested name, in the order of the request (a name requested twice is
    processed twice, a name not found is skipped); otherwise all of them.
    When none of the requested names is found, the run ends early. *)
Theorem select_segments_result (eq_other : pyval -> pyval -> bool) (v : pyval)
    (all : list (list (pyval * pyval))) (l : list (list (pyval * pyval))) :
  (select_segments eq_other v all = Process l ->
   l <> [] /\ (forall cfg, In cfg l -> In cfg all)
   /\ l = match v with
          | PList ((_ :: _) as names) => chosen_configs eq_other all names
          | _ => all
          end)
  /\ (select_segments eq_other v all = NoValidSegments ->
      exists names, v = PList names /\ names <> [] /\ chosen_configs eq_other all names = []).
Proof.
  assert (Hall : match all with [] => NoSegments | _ => Process all end = Process l ->
                 l <> [] /\ (forall cfg, In cfg l -> In cfg all) /\ l = all).
  { destruct all as [|a all]; [discriminate|]. intros H. injection H as <-.
    split; [discriminate|]. split; [tauto|reflexivity]. }
  assert (Hall' : match all with [] => NoSegments | _ => Process all end <> NoValidSegments)
    by (destruct all; discriminate).
  unfold select_segments.
  destruct v as [| | | |names| |];
    try (split; [exact Hall|intros H; exfalso; exact (Hall' H)]).
  destruct names as [|n ns]; [split; [exact Hall|intros H; exfalso; exact (Hall' H)]|].
  cbn [Stages.truthy length Nat.eqb negb]. rewrite select_fold. cbn [app].
  destruct (chosen_configs eq_other all (n :: ns)) as [|c cs] eqn:Hc.
  - split; [discriminate|]. intros _. exists (n :: ns). split; [reflexivity|].
    split; [discriminate|exact Hc].
  - split; [|discriminate]. intros H. injection H as <-.
    split; [discriminate|]. split; [|reflexivity].
    intros cfg Hin. apply (chosen_configs_incl eq_other all (n :: ns)). rewrite Hc. exact Hin.
Qed.

Lemma select_segments_result_witness :
  select_segments (fun _ _ => false) (PList [PStr "B"; PStr "X"; PStr "B"]) [cfg_a; cfg_b]
    = Process [cfg_b; cfg_b]
  /\ [cfg_b; cfg_b] = chosen_configs (fun _ _ => false) [cfg_a; cfg_b] [PStr "B"; PStr "X"; PStr "B"]
  /\ select_segments (fun _ _ => false) (PList [PStr "X"]) [cfg_a; cfg_b] = NoValidSegments.
Proof.
  assert (H1 : select_segments (fun _ _ => false) (PList [PStr "B"; PStr "X"; PStr "B"])
                 [cfg_a; cfg_b] = Process [cfg_b; cfg_b]) by (vm_compute; reflexivity).
  assert (H2 : select_segments (fun _ _ => false) (PList [PStr "X"]) [cfg_a; cfg_b]
               = NoValidSegments) by (vm_compute; reflexivity).
  split; [exact H1|]. split; [|exact H2].
  exact (proj2 (proj2 (proj1 (select_segments_result _ _ _ _) H1))).
Defined.

End SegmentsMore.

(** ** Further properties: the summary of the [__main__] block *)

Module RunnerMainMore.
Import PyVal Runner RunnerFacts RunnerMain.

Lemma fold_unsuccessful py_str agents client_profile (l : list cand) (st : run_state) :
  Forall (fun r => successful py_str r = false) (output st) ->
  Forall (fun r => successful py_str r = false)
         (output (fold_left (cand_step agents client_profile) l st)).
Proof.
  revert st. induction l as [|[[[sn cfg] u] c] l IH]; intros st H; [exact H|].
  cbn [fold_left cand_step]. apply IH.
  destruct (skipped (processed st) c) eqn:Hs.
  - rewrite process_skip by exact Hs. exact H.
  - rewrite process_added by exact Hs. cbn [output].
    apply Forall_app. split; [exact H|]. constructor; [reflexivity|constructor].
Qed.

(** X3.  The summary of a run never counts a successfully analyzed entry:
    every record of the run carries the pain points "Critical: Analysis
    function returned no data", whatever the segments and candidates. *)
Theorem run_no_successful_analyses (py_str : pyval -> string)
    (agents : list (string * pyval)) (client_profile : list (pyval * pyval))
    (segs : list (string * list (pyval * pyval) * list (string * list company))) :
  successful_analyses_count py_str (output (run_segments agents client_profile init_state segs)) = 0.
Proof.
  rewrite run_segments_flat.
  pose proof (fold_unsuccessful py_str agents client_profile (flatten segs) init_state
                (List.Forall_nil _)) as H.
  unfold successful_analyses_count.
  induction H as [|r rs Hr _ IH]; [reflexivity|].
  rewrite filter_cons_False; [exact IH|]. rewrite Hr. exact id.
Qed.

End RunnerMainMore.

(** ** Further properties: [write_to_csv] *)

Module CsvMore.
Import PyVal Csv.

Lemma in_list_app_cons (x a : string) (l1 l2 : list string) :
  Urls.in_list x (l1 ++ a :: l2) = Urls.in_list x (a :: l1 ++ l2).
Proof.
  unfold Urls.in_list. cbn [existsb]. rewrite !existsb_app. cbn [existsb].
  destruct (String.eqb x a), (existsb _ l1), (existsb _ l2); reflexivity.
Qed.

Lemma write_rows_spec (today_date : string) (data : list pyval) : forall seen i row,
  nth_error (fst (write_rows today_date seen data)) i = Some row ->
  length row = 8
  /\ exists name,
       nth_error row 0 = Some (PStr name) /\ name <> EmptyString /\ Py.strip name = name
       /\ Urls.in_list (Py.lower name) Runner.GENERIC_COMPANY_NAMES = false
       /\ nth_error row 5 = Some (PStr today_date)
       /\ nth_error row 6
          = Some (PStr (if Urls.in_list name
                             (map row_name (firstn i (fst (write_rows today_date seen data))) ++ seen)
                        then "True" else "False")).
Proof.
  induction data as [|x data IH]; intros seen i row Hrow; [destruct i; discriminate|].
  cbn [write_rows] in *. destruct x as [| | | | |kvs|]; try exact (IH seen i row Hrow).
  destruct (dict_get_def kvs "name" (PStr EmptyString)) as [| | |n| | |];
    try (destruct i; discriminate).
  destruct (String.eqb (Py.strip n) EmptyString) eqn:He; [exact (IH seen i row Hrow)|].
  destruct (Urls.in_list (Py.lower (Py.strip n)) Runner.GENERIC_COMPANY_NAMES) eqn:Hg;
    [exact (IH seen i row Hrow)|].
  destruct (write_rows today_date (Py.strip n :: seen) data) as [rows completed] eqn:Hw.
  cbn [fst] in *. destruct i as [|i].
  - injection Hrow as <-. split; [reflexivity|]. exists (Py.strip n).
    split; [reflexivity|]. split; [apply String.eqb_neq, He|].
    split; [apply StripFacts.strip_idem|]. split; [exact Hg|]. split; reflexivity.
  - cbn [nth_error] in Hrow. specialize (IH (Py.strip n :: seen) i row). rewrite Hw in IH.
    cbn [fst] in IH. destruct (IH Hrow) as [Hl [name [H0 [H1 [H2 [H3 [H5 H6]]]]]]].
    split; [exact Hl|]. exists name. repeat (split; [assumption|]).
    rewrite H6, in_list_app_cons. reflexivity.
Qed.

(** X5.  Every row written has the eight columns of [CSV_EXPORT_HEADER], a
    non-empty, stripped, non-generic company name and today's date, and
    is marked "True" in "Is Duplicate" exactly when an earlier row of the
    file has the same name. *)
Theorem write_to_csv_rows (today_date : string) (data : list pyval)
    (rows : list (list pyval)) (completed : bool) :
  write_to_csv today_date data = Written rows completed ->
  forall i row, nth_error rows i = Some row ->
  length row = length CSV_EXPORT_HEADER
  /\ exists name,
       nth_error row 0 = Some (PStr name) /\ name <> EmptyString /\ Py.strip name = name
       /\ Urls.in_list (Py.lower name) Runner.GENERIC_COMPANY_NAMES = false
       /\ nth_error row 5 = Some (PStr today_date)
       /\ nth_error row 6
          = Some (PStr (if Urls.in_list name (map row_name (firstn i rows)) then "True" else "False")).
Proof.
  unfold write_to_csv. destruct data as [|x data]; [discriminate|].
  pose proof (write_rows_spec today_date (x :: data) []) as Hs.
  destruct (write_rows today_date [] (x :: data)) as [rows' completed'].
  intros H. injection H as <- <-. intros i row Hrow.
  destruct (Hs i row Hrow) as [Hl Hn]. cbn [fst] in Hn. split; [exact Hl|].
  rewrite app_nil_r in Hn. exact Hn.
Qed.

Lemma write_to_csv_rows_witness :
  write_to_csv "2026-10-16" CsvFacts.leads
    = Written [[PStr "Acme"; PStr "https://acme.com"; PStr EmptyString; PStr EmptyString;
                PStr "N/A"; PStr "2026-10-16"; PStr "False"; PStr "Unknown Segment"];
               [PStr "Beta"; PStr "N/A"; PStr EmptyString; PStr EmptyString;
                PStr "N/A"; PStr "2026-10-16"; PStr "False"; PStr "Fintech"];
               [PStr "Acme"; PStr "https://acme2.com"; PStr EmptyString; PStr EmptyString;
                PStr "N/A"; PStr "2026-10-16"; PStr "True"; PStr "Unknown Segment"]] true
  /\ nth_error [PStr "Acme"; PStr "https://acme2.com"; PStr EmptyString; PStr EmptyString;
                PStr "N/A"; PStr "2026-10-16"; PStr "True"; PStr "Unknown Segment"] 6
     = Some (PStr "True").
Proof.
  assert (H : write_to_csv "2026-10-16" CsvFacts.leads
    = Written [[PStr "Acme"; PStr "https://acme.com"; PStr EmptyString; PStr EmptyString;
                PStr "N/A"; PStr "2026-10-16"; PStr "False"; PStr "Unknown Segment"];
               [PStr "Beta"; PStr "N/A"; PStr EmptyString; PStr EmptyString;
                PStr "N/A"; PStr "2026-10-16"; PStr "False"; PStr "Fintech"];
               [PStr "Acme"; PStr "https://acme2.com"; PStr EmptyString; PStr EmptyString;
                PStr "N/A"; PStr "2026-10-16"; PStr "True"; PStr "Unknown Segment"]] true)
    by (vm_compute; reflexivity).
  split; [exact H|].
  destruct (write_to_csv_rows _ _ _ _ H 2 _ eq_refl) as [_ [name [H0 [_ [_ [_ [_ H6]]]]]]].
  injection H0 as <-. exact H6.
Defined.

Lemma write_rows_stop (today_date : string) (kvs : list (pyval * pyval)) (post : list pyval)
    (pre : list pyval) : forall seen,
  snd (write_rows today_date seen pre) = true ->
  (forall s, dict_get_def kvs "name" (PStr EmptyString) <> PStr s) ->
  write_rows today_date seen (pre ++ PDict kvs :: post) = (fst (write_rows today_date seen pre), false).
Proof.
  induction pre as [|x pre IH]; intros seen Hc Hn.
  - cbn [app write_rows fst].
    destruct (dict_get_def kvs "name" (PStr EmptyString)) as [| | |n| | |];
      try reflexivity. exfalso. exact (Hn n eq_refl).
  - cbn [app write_rows] in *. destruct x as [| | | | |kvs'|]; try exact (IH seen Hc Hn).
    destruct (dict_get_def kvs' "name" (PStr EmptyString)) as [| | |n| | |];
      try discriminate Hc.
    destruct (String.eqb (Py.strip n) EmptyString); [exact (IH seen Hc Hn)|].
    destruct (Urls.in_list (Py.lower (Py.strip n)) Runner.GENERIC_COMPANY_NAMES);
      [exact (IH seen Hc Hn)|].
    specialize (IH (Py.strip n :: seen)).
    destruct (write_rows today_date (Py.strip n :: seen) pre) as [rows completed].
    cbn [snd fst] in *. rewrite (IH Hc Hn). reflexivity.
Qed.

(** X6.  An entry whose name is not a string (e.g. [None]) ends the writing:
    [.strip()] raises, the exception handler around the file catches it,
    and no later entry is written, valid or not. *)
Theorem write_to_csv_stops (today_date : string) (pre : list pyval)
    (kvs : list (pyval * pyval)) (post : list pyval) :
  snd (write_rows today_date [] pre) = true ->
  (forall s, dict_get_def kvs "name" (PStr EmptyString) <> PStr s) ->
  write_to_csv today_date (pre ++ PDict kvs :: post)
  = Written (fst (write_rows today_date [] pre)) false.
Proof.
  intros Hc Hn. unfold write_to_csv.
  destruct (pre ++ PDict kvs :: post) as [|y ys] eqn:Hl; [destruct pre; discriminate|].
  rewrite <- Hl, (write_rows_stop today_date kvs post pre [] Hc Hn). reflexivity.
Qed.

Lemma write_to_csv_stops_witness :
  snd (write_rows "2026-10-16" [] [List.hd PNone CsvFacts.leads]) = true
  /\ (forall s, dict_get_def CsvFacts.bad_lead "name" (PStr EmptyString) <> PStr s)
  /\ write_to_csv "2026-10-16"
       ([List.hd PNone CsvFacts.leads] ++ PDict CsvFacts.bad_lead :: List.tl CsvFacts.leads)
     = Written (fst (write_rows "2026-10-16" [] [List.hd PNone CsvFacts.leads])) false.
Proof.
  assert (H1 : snd (write_rows "2026-10-16" [] [List.hd PNone CsvFacts.leads]) = true)
    by (vm_compute; reflexivity).
  assert (H2 : forall s, dict_get_def CsvFacts.bad_lead "name" (PStr EmptyString) <> PStr s)
    by (intros s; vm_compute; discriminate).
  split; [exact H1|]. split; [exact H2|].
  exact (write_to_csv_stops _ _ _ _ H1 H2).
Defined.

End CsvMore.

(** ** Further properties: the analysis parsers *)

Module AnalysisMore.
Import PyVal.

(** Closes a branch of the pain-point computation once its [pain1] is
    known. *)
Local Ltac fin := cbv [PyVal.bind];
  lazymatch goal with
  | Hp : forall pain1 : string, _
    |- context [Re.sub Re.f_M Extractor.marker_pattern_1 EmptyString ?x] => exact (Hp x)
  end.

Lemma split1_index0 (s sep : string) : exists r, index (Py.split1 s sep) 0 = Ok r.
Proof. unfold Py.split1. destruct (Py.find s sep); eexists; reflexivity. Qed.

(** X12.  [company_extractor.parse_analysis_results] returns normally on every
    string, with pain points that are never blank (the sentinel replaces
    them) and an email that is empty or passes the denylist checks. *)
Theorem extractor_analysis_shape (result : string) :
  exists a, Extractor.parse_analysis_results (PStr result) = Ok a
    /\ Py.strip (pain_points a) <> EmptyString
    /\ (email a = EmptyString \/ Extractor.email_ok (email a) = true).
Proof.
  unfold Extractor.parse_analysis_results.
  assert (Hc : exists cr,
    (if Py.startswith (Py.upper (Py.strip result)) "FINAL ANSWER:"
     then let! rest := Py2.after_first (Py.strip result) ":" in Ok (Py.strip rest)
     else Ok (Py.strip result)) = Ok cr).
  { destruct (Py.startswith (Py.upper (Py.strip result)) "FINAL ANSWER:") eqn:H;
      [|eexists; reflexivity].
    assert (Hin : In ":"%char (list_ascii_of_string (Py.upper (Py.strip result)))).
    { apply (ParserProofs.startswith_in _ "FINAL ANSWER:"); [exact H|]. vm_compute. tauto. }
    apply ParserProofs.in_map_str in Hin as [d [Hd Hu]].
    apply ParserProofs.upper_char_colon in Hu. subst d.
    destruct (ParserProofs.find_char_some _ _ Hd) as [i Hi].
    destruct (ParserProofs.split1_found _ _ i Hi) as [r Hr].
    unfold Py2.after_first. rewrite Hr. eexists. reflexivity. }
  destruct Hc as [cr Hc]. rewrite Hc. cbn [bind].
  assert (He : forall em, em = match Extractor.valid_emails cr with e :: _ => e | [] => EmptyString end ->
                 em = EmptyString \/ Extractor.email_ok em = true).
  { intros em ->. unfold Extractor.valid_emails.
    destruct (filter Extractor.email_ok _) as [|e es] eqn:Hf; [left; reflexivity|right].
    assert (Hin : e ∈ filter Extractor.email_ok
                        (Re.findall0 Re.no_flags Extractor.email_pattern cr))
      by (rewrite Hf; apply list_elem_of_here).
    apply list_elem_of_filter in Hin as [Hp _]. apply Is_true_true in Hp. exact Hp. }
  generalize (He _ eq_refl). clear He.
  generalize (match Extractor.valid_emails cr with e :: _ => e | [] => EmptyString end).
  intros em He.
  assert (Hp : forall pain1 : string,
    exists a, Ok {| email := em;
                    pain_points :=
                      if String.eqb (Py.strip (Py.strip (Re.sub Re.no_flags Extractor.marker_pattern_2
                            (String "010"%char EmptyString)
                            (Py.strip (Re.sub Re.f_M Extractor.marker_pattern_1 EmptyString pain1)))))
                           EmptyString
                         || String.eqb (Py.strip (Re.sub Re.no_flags Extractor.marker_pattern_2
                              (String "010"%char EmptyString)
                              (Py.strip (Re.sub Re.f_M Extractor.marker_pattern_1 EmptyString pain1))))
                            em
                      then Extractor.no_points_sentinel
                      else Py.strip (Re.sub Re.no_flags Extractor.marker_pattern_2
                              (String "010"%char EmptyString)
                              (Py.strip (Re.sub Re.f_M Extractor.marker_pattern_1 EmptyString pain1))) |}
              = Ok a
      /\ Py.strip (pain_points a) <> EmptyString
      /\ (email a = EmptyString \/ Extractor.email_ok (email a) = true)).
  { intros pain1. eexists. split; [reflexivity|]. cbn [pain_points email]. split; [|exact He].
    destruct (String.eqb (Py.strip (Py.strip _)) EmptyString) eqn:E1; cbn [orb].
    - vm_compute. discriminate.
    - destruct (String.eqb _ em); [vm_compute; discriminate|].
      apply String.eqb_neq in E1. exact E1. }
  destruct (match Extractor.block_loop _ _ _ with Some b => _ | None => None end) as [b|].
  - exact (Hp b).
  - destruct (String.eqb em EmptyString); [exact (Hp cr)|].
    destruct (split1_index0 cr em) as [p0 H0]. rewrite H0. cbn [bind].
    destruct (1 <? length (Py.split1 cr em)) eqn:Hl.
    + unfold index at 1. apply Nat.ltb_lt in Hl.
      destruct (nth_error (Py.split1 cr em) 1) as [p1|] eqn:Hn;
        [|apply nth_error_None in Hn; lia].
      cbn [bind].
      destruct (20 <? _); [fin|]. destruct (20 <? _); fin.
    + cbn [bind]. destruct (20 <? _); [fin|]. destruct (20 <? _); fin.
Qed.

(** X13.  [utils/parser.parse_analysis_results] on a string: the JSON path
    returns both fields stripped; the text path returns an email that is
    empty or passes its checks, and empty pain points only when the
    cleaned text is blank. *)
Theorem parser_analysis_shape (result : string) (a : analysis) :
  Parser.parse_analysis_results (PStr result) = Ok a ->
  (Parser.json_analysis result = Some a
   /\ Py.strip (email a) = email a /\ Py.strip (pain_points a) = pain_points a)
  \/ (Parser.json_analysis result = None
      /\ (email a = EmptyString \/ Parser.email_ok (email a) = true)
      /\ (pain_points a = EmptyString ->
          exists cleaned, Parser.clean_final_answer result = Ok cleaned
                          /\ Py.strip cleaned = EmptyString)).
Proof.
  unfold Parser.parse_analysis_results.
  destruct (Parser.json_analysis result) as [a'|] eqn:Hj.
  - intros H. injection H as <-. left. split; [reflexivity|].
    unfold Parser.json_analysis in Hj.
    destruct (_ && _); [|discriminate].
    destruct (Json.loads result) as [[| | | | |kvs|]|]; try discriminate.
    destruct (dict_get_def kvs "email" _) as [| | |e| | |]; try discriminate.
    destruct (dict_get_def kvs "pain_points" _) as [| | |p| | |]; try discriminate.
    injection Hj as <-. cbn [email pain_points]. split; apply StripFacts.strip_idem.
  - destruct (Parser.clean_final_answer result) as [cleaned|e] eqn:Hc; cbn [bind];
      [|discriminate].
    assert (He : forall em,
      em = match filter Parser.email_ok (Re.findall0 Re.no_flags Parser.email_pattern cleaned) with
           | e :: _ => e | [] => EmptyString end ->
      em = EmptyString \/ Parser.email_ok em = true).
    { intros em ->.
      destruct (filter Parser.email_ok _) as [|e es] eqn:Hf; [left; reflexivity|right].
      assert (Hin : e ∈ filter Parser.email_ok
                          (Re.findall0 Re.no_flags Parser.email_pattern cleaned))
        by (rewrite Hf; apply list_elem_of_here).
      apply list_elem_of_filter in Hin as [Hp _]. apply Is_true_true in Hp. exact Hp. }
    generalize (He _ eq_refl). clear He.
    generalize (match filter Parser.email_ok (Re.findall0 Re.no_flags Parser.email_pattern cleaned)
                with e :: _ => e | [] => EmptyString end).
    intros em He.
    match goal with
    | |- bind ?m _ = Ok a -> _ => destruct m as [pain3|e] eqn:Hp3; cbn [bind]; [|discriminate]
    end.
    intros H. injection H as <-. right. cbn [email pain_points].
    split; [reflexivity|]. split; [exact He|].
    destruct (String.eqb pain3 EmptyString) eqn:E.
    + intros Hs. exists cleaned. split; [reflexivity|exact Hs].
    + intros Hs. subst pain3. rewrite String.eqb_refl in E. discriminate.
Qed.

Lemma parser_analysis_shape_witness :
  Parser.parse_analysis_results (PStr "hello") = Ok {| email := EmptyString; pain_points := "hello" |}
  /\ ((Parser.json_analysis "hello" = Some {| email := EmptyString; pain_points := "hello" |}
       /\ Py.strip EmptyString = EmptyString /\ Py.strip "hello" = "hello"%string)
      \/ (Parser.json_analysis "hello" = None
          /\ (EmptyString = EmptyString \/ Parser.email_ok EmptyString = true)
          /\ ("hello"%string = EmptyString ->
              exists cleaned, Parser.clean_final_answer "hello" = Ok cleaned
                              /\ Py.strip cleaned = EmptyString))).
Proof.
  assert (H : Parser.parse_analysis_results (PStr "hello")
              = Ok {| email := EmptyString; pain_points := "hello" |}) by (vm_compute; reflexivity).
  split; [exact H|]. exact (parser_analysis_shape _ _ H).
Defined.

End AnalysisMore.

(** ** Further properties: the fallback list parser *)

Module FallbackMore.
Import PyVal Fallback.

Lemma fallback_no_website (sp : soup) :
  Forall (fun c => cwebsite c = EmptyString) (fallback_list_parser sp).
Proof.
  assert (Ht : Forall (fun c => cwebsite c = EmptyString) (flat_map table_row (wikitable_rows sp))).
  { apply Forall_flat_map, List.Forall_forall. intros tds _. unfold table_row.
    destruct (2 <=? length tds); [|constructor].
    destruct (_ && _); constructor; [reflexivity|constructor]. }
  unfold fallback_list_parser.
  destruct (flat_map table_row (wikitable_rows sp)) as [|r rs]; [|exact Ht].
  apply Forall_flat_map, List.Forall_forall. intros txt _. unfold li_row.
  destruct (fullmatch _ _ _); constructor; [reflexivity|constructor].
Qed.

Lemma fold_no_website segment_config client_profile agents sn u (l : list company) st :
  Forall (fun c => cwebsite c = EmptyString) l ->
  fold_left (Runner.process_candidate segment_config client_profile agents sn u) l st = st.
Proof.
  revert st. induction l as [|c l IH]; intros st H; [reflexivity|].
  inversion H as [|? ? Hc Hl]; subst. cbn [fold_left]. rewrite <- (IH st Hl) at 2.
  f_equal. unfold Runner.process_candidate. rewrite Hc, orb_true_r. reflexivity.
Qed.

Lemma fetch_and_parse_no_website scraper sp_of url :
  Forall (fun c => cwebsite c = EmptyString)
    (fst (Stages.fetch_and_parse scraper (fun html => Ok (fallback_list_parser (sp_of html))) url [])).
Proof.
  unfold Stages.fetch_and_parse. destruct (scraper url); [apply fallback_no_website|constructor].
Qed.

(** X2.  With [_fallback_list_parser] as the fallback of
    [extract_companies_from_url], the candidates it returns either come
    from the Parsing Cascade (a non-empty answer) or come from the
    fallback, which gives every row the website "": the run loop then
    skips all of them, adding no record and no processed website. *)
Theorem fallback_candidates_skipped (research_agent_ok extraction_task_ok : bool)
    (scraper : string -> res string) (sp_of : string -> soup) (kickoff : res Stages.crew_output)
    (literal_eval : string -> res pyval) (url : string) :
  let ex := fst (Stages.extract_companies_from_url research_agent_ok extraction_task_ok scraper
                   (fun html => Ok (fallback_list_parser (sp_of html))) kickoff literal_eval url) in
  (exists raw, Parser.parse_company_data literal_eval (PStr raw) = Ok ex /\ ex <> [])
  \/ (forall segment_config client_profile agents sn u st,
        fold_left (Runner.process_candidate segment_config client_profile agents sn u) ex st = st).
Proof.
  cbv zeta. unfold Stages.extract_companies_from_url.
  destruct research_agent_ok; cbn [negb]; [|right; reflexivity].
  destruct extraction_task_ok; cbn [negb]; [|right; reflexivity].
  pose proof (fetch_and_parse_no_website scraper sp_of url) as H0.
  destruct (Stages.fetch_and_parse _ _ url []) as [ex0 tr0]. cbn [fst] in H0.
  destruct kickoff as [out|e]; [|right; intros; apply fold_no_website, H0].
  destruct (String.eqb _ EmptyString); [right; intros; apply fold_no_website, H0|].
  destruct (Parser.parse_company_data literal_eval (PStr _)) as [[|c cs]|e] eqn:Hp.
  - right. intros. apply fold_no_website, H0.
  - left. eexists. split; [exact Hp|discriminate].
  - right. intros. apply fold_no_website, H0.
Qed.

End FallbackMore.
